(** * The Kubernetes control dispatcher of the probe

    A shallow embedding of [probe/kubernetes/controls.go] (both revisions
    present in the repository) and of [probe/kubernetes/volumesnapshot.go].

    Go methods with side effects become computations in a state monad over
    a [World]: the ordered log of everything the dispatcher did to its
    collaborators (cluster client calls, cache walks, pipe registrations,
    close callbacks, stream closes).  Collaborators whose code lives in
    other files are records of oracles; every theorem quantifies over
    them. *)

From stdpp Require Import gmap strings list fin_maps.

Open Scope string_scope.
Open Scope list_scope.

(** ** Go preliminaries *)

(** A Go [error] value is its message; a nil [error] is [None]. *)
Definition error := string.

(** A Go [(T, error)] result pair. *)
Inductive result (A : Type) : Type :=
| Ok (a : A)
| Err (err : error).
Arguments Ok {A} a.
Arguments Err {A} err.

(** [k8s.io/apimachinery/pkg/runtime/schema.GroupKind]. *)
Module schema.
Record GroupKind := { Group : string; Kind : string }.
End schema.

(** An [io.ReadCloser] handed out by the cluster client: an opaque handle. *)
Record ReadCloser := { handle : nat }.

(** [ioutil.Discard]. *)
Inductive Writer := Discard.

(** The anonymous [struct { io.Reader; io.Writer }] built by the handlers.
    Only [Read] and [Write] are promoted: whoever receives this value has
    no [Close] method to call on the underlying stream. *)
Record ReadWriter := { Reader : ReadCloser; Writer_ : Writer }.

(** The closure [func() { readCloser.Close() }] given to [pipe.OnClose]. *)
Inductive Callback := CloseStream (readCloser : ReadCloser).

(** ** The world: an ordered log of effects *)

Inductive Event :=
| EvGetLogs (namespaceID podID : string) (containerNames : list string)
| EvDescribe (namespaceID resourceID : string) (groupKind : schema.GroupKind)
| EvDeletePod (namespaceID podID : string)
| EvDeleteVolumeSnapshot (namespaceID volumeSnapshotID : string)
| EvCreateSnapshot (persistentVolumeID : string)
| EvCreateVolumeSnapshot (namespaceID persistentVolumeClaimID capacity : string)
| EvCloneVolumeSnapshot (namespaceID volumeSnapshotID persistentVolumeClaimID capacity : string)
| EvScaleUp (kind namespaceID id : string)
| EvScaleDown (kind namespaceID id : string)
| EvWalk (store : string)
| EvNewPipeFromEnds (remote : ReadWriter) (appID : string)
| EvOnClose (pipeID : string) (cb : Callback)
| EvClose (readCloser : ReadCloser).

Definition World := list Event.

Definition M (A : Type) : Type := World -> A * World.

Definition ret {A} (a : A) : M A := fun w => (a, w).

Definition bind {A B} (m : M A) (k : A -> M B) : M B :=
  fun w => let '(a, w') := m w in k a w'.

Definition emit (e : Event) : M unit := fun w => (tt, w ++ [e]).

Declare Scope go_scope.
Delimit Scope go_scope with go.
Notation "'let*' x ':=' c 'in' k" := (bind c (fun x => k))
  (at level 10, x pattern, c at level 100, k at level 200) : go_scope.
Notation "c ';;;' k" := (bind c (fun _ => k))
  (at level 100, k at level 200, right associativity) : go_scope.
Open Scope go_scope.

(** Is a given event the cluster-management client performing an action
    (as opposed to a cache walk or pipe bookkeeping)? *)
Definition is_client_op (e : Event) : bool :=
  match e with
  | EvGetLogs _ _ _ | EvDescribe _ _ _ | EvDeletePod _ _
  | EvDeleteVolumeSnapshot _ _ | EvCreateSnapshot _
  | EvCreateVolumeSnapshot _ _ _ | EvCloneVolumeSnapshot _ _ _ _
  | EvScaleUp _ _ _ | EvScaleDown _ _ _ => true
  | _ => false
  end.

Definition is_close_of (rc : ReadCloser) (e : Event) : bool :=
  match e with
  | EvClose rc' => Nat.eqb (handle rc) (handle rc')
  | _ => false
  end.

Definition is_release_of (rc : ReadCloser) (e : Event) : bool :=
  match e with
  | EvOnClose _ (CloseStream rc') => Nat.eqb (handle rc) (handle rc')
  | _ => false
  end.

(** How many times [rc.Close()] ran in a world. *)
Definition close_count (rc : ReadCloser) (w : World) : nat :=
  length (List.filter (is_close_of rc) w).

(** A stream is leaked in a world when it was never closed and no pending
    pipe callback will ever close it. *)
Definition leaked (rc : ReadCloser) (w : World) : bool :=
  negb (existsb (is_close_of rc) w) && negb (existsb (is_release_of rc) w).

(** ** Package [common/xfer] *)

Module xfer.

(** Modelled from the spec: [xfer.Request] is declared outside these
    files.  "ControlRequest: application session id, target node
    identifier, control identifier being invoked, opaque payload". *)
Record Request := {
  AppID : string;
  NodeID : string;
  Control : string;
  ControlArgs : list (string * string)
}.

(** Modelled from the spec: [xfer.Response] is declared outside these
    files.  "Response: exactly one populated field of value: string,
    removedNode: NodeIdentifier, pipeId: string, error: string".  A field
    is populated when it is not the empty string (Go's zero value). *)
Record Response := {
  Value : string;
  Error : string;
  Pipe : string;
  RemovedNode : string
}.

(** The composite literal [xfer.Response{}]. *)
Definition empty : Response :=
  {| Value := ""; Error := ""; Pipe := ""; RemovedNode := "" |}.

(** Modelled from the spec: [xfer.ResponseError] is defined outside
    these files.  "on client error, returns an error response carrying the
    client's message"; on a nil error, "mutation actions (delete, scale)
    with no payload return an empty ... response". *)
Definition ResponseError (err : option error) : Response :=
  match err with
  | Some msg => {| Value := ""; Error := msg; Pipe := ""; RemovedNode := "" |}
  | None => empty
  end.

(** Modelled from the spec: [xfer.ResponseErrorf] is defined outside
    these files.  Every call site has a format of the shape
    ["<prefix>%s"] and one string argument, so the formatted message is
    the prefix followed by the argument. *)
Definition ResponseErrorf (prefix arg : string) : Response :=
  {| Value := ""; Error := String.append prefix arg; Pipe := ""; RemovedNode := "" |}.

Definition ControlHandlerFunc : Type := Request -> M Response.

End xfer.

(** ** Package [report]: identifiers and node-id parsers

    None of the [report] package is among these files.  Its constants
    and parsers are taken as parameters. *)

Module report.

Class Pkg := {
  ParsePodNodeID : string -> option string;
  ParseDeploymentNodeID : string -> option string;
  ParsePersistentVolumeClaimNodeID : string -> option string;
  ParsePersistentVolumeNodeID : string -> option string;
  ParseVolumeSnapshotNodeID : string -> option string;
  ParseServiceNodeID : string -> option string;
  ParseDaemonSetNodeID : string -> option string;
  ParseCronJobNodeID : string -> option string;
  ParseStatefulSetNodeID : string -> option string;
  ParseStorageClassNodeID : string -> option string;
  MakeVolumeSnapshotNodeID : string -> string;
  Deployment : string;
  KubernetesCloneVolumeSnapshot : string;
  KubernetesCreateVolumeSnapshot : string;
  KubernetesCreateSnapshot : string;
  KubernetesGetLogs : string;
  KubernetesDescribePod : string;
  KubernetesDescribeService : string;
  KubernetesCronjob : string;
  KubernetesDescribeDeployment : string;
  KubernetesDescribeDaemonSet : string;
  KubernetesDescribePVC : string;
  KubernetesDescribePV : string;
  KubernetesDescribeSC : string;
  KubernetesDescribeStatefulSet : string;
  KubernetesDeletePod : string;
  KubernetesDeleteVolumeSnapshot : string;
  KubernetesScaleUp : string;
  KubernetesScaleDown : string
}.

End report.

(** The package-level [ResourceMap] of the kubernetes package is declared
    outside these files; indexing a Go map is total (a missing key gives
    the zero value), hence a function. *)
Class Resources := ResourceMap : string -> schema.GroupKind.

(** ** Resource handles *)

(** The accessors of the [Meta] interface that the dispatcher uses. *)
Record Meta := { UID : string; Name : string; Namespace : string }.

Record Pod := { pod_Meta :> Meta; ContainerNames : list string }.
Record Deployment := { deployment_Meta :> Meta }.
Record Service := { service_Meta :> Meta }.
Record DaemonSet := { daemonSet_Meta :> Meta }.
Record CronJob := { cronJob_Meta :> Meta }.
Record StatefulSet := { statefulSet_Meta :> Meta }.
Record StorageClass := { storageClass_Meta :> Meta }.
Record PersistentVolume := { persistentVolume_Meta :> Meta }.
Record PersistentVolumeClaim :=
  { persistentVolumeClaim_Meta :> Meta; pvc_capacity : string }.
Record VolumeSnapshot :=
  { volumeSnapshot_Meta :> Meta; GetVolumeName : string; vs_capacity : string }.

Class Capacity (A : Type) := GetCapacity : A -> string.
#[export] Instance PersistentVolumeClaim_Capacity : Capacity PersistentVolumeClaim :=
  pvc_capacity.
#[export] Instance VolumeSnapshot_Capacity : Capacity VolumeSnapshot :=
  vs_capacity.

(** ** The cluster-management client *)

(** The [Client] interface is declared outside these files.  Its
    stores hold what each walker currently yields, in walk order; its
    operations are oracles that decide the outcome of each call. *)
Record Client := {
  podStore : list Pod;
  deploymentStore : list Deployment;
  serviceStore : list Service;
  daemonSetStore : list DaemonSet;
  cronJobStore : list CronJob;
  statefulSetStore : list StatefulSet;
  storageClassStore : list StorageClass;
  persistentVolumeStore : list PersistentVolume;
  persistentVolumeClaimStore : list PersistentVolumeClaim;
  volumeSnapshotStore : list VolumeSnapshot;
  doGetLogs : string -> string -> list string -> result ReadCloser;
  doDescribe : string -> string -> schema.GroupKind -> result ReadCloser;
  doDeletePod : string -> string -> option error;
  doDeleteVolumeSnapshot : string -> string -> option error;
  doCreateSnapshot : string -> result string;
  doCreateVolumeSnapshot : string -> string -> string -> option error;
  doCloneVolumeSnapshot : string -> string -> string -> string -> option error;
  doScaleUp : string -> string -> string -> option error;
  doScaleDown : string -> string -> string -> option error
}.

(** Modelled from the spec: the walkers ([WalkPods] and its siblings) are
    methods of the client, outside these files.  "Resource cache
    walkers: per kind, a way to iterate current ResourceHandle values".
    The walker hands every handle of the store, in order, to the visitor;
    as the visitor's Go type [func(T) error] suggests, an error from the
    visitor ends the walk.  The visitor's captured variable is the state
    [s]. *)
Fixpoint walk {A St : Type} (store : list A)
    (f : A -> St -> option error * St) (s : St) : option error * St :=
  match store with
  | [] => (None, s)
  | x :: rest =>
      match f x s with
      | (Some err, s') => (Some err, s')
      | (None, s') => walk rest f s'
      end
  end.

(** How many handles a walk hands to its visitor. *)
Fixpoint visited {A St : Type} (store : list A)
    (f : A -> St -> option error * St) (s : St) : nat :=
  match store with
  | [] => 0
  | x :: rest =>
      match f x s with
      | (Some _, _) => 1
      | (None, s') => S (visited rest f s')
      end
  end.

Module client.
Section Methods.
Context (c : Client).

Definition walker {A St : Type} (name : string) (store : list A)
    (f : A -> St -> option error * St) (s : St) : M (option error * St) :=
  emit (EvWalk name) ;;; ret (walk store f s).

Definition WalkPods {St} := @walker Pod St "Pods" (podStore c).
Definition WalkDeployments {St} :=
  @walker Deployment St "Deployments" (deploymentStore c).
Definition WalkServices {St} := @walker Service St "Services" (serviceStore c).
Definition WalkDaemonSets {St} :=
  @walker DaemonSet St "DaemonSets" (daemonSetStore c).
Definition WalkCronJobs {St} := @walker CronJob St "CronJobs" (cronJobStore c).
Definition WalkStatefulSets {St} :=
  @walker StatefulSet St "StatefulSets" (statefulSetStore c).
Definition WalkStorageClasses {St} :=
  @walker StorageClass St "StorageClasses" (storageClassStore c).
Definition WalkPersistentVolumes {St} :=
  @walker PersistentVolume St "PersistentVolumes" (persistentVolumeStore c).
Definition WalkPersistentVolumeClaims {St} :=
  @walker PersistentVolumeClaim St "PersistentVolumeClaims"
    (persistentVolumeClaimStore c).
Definition WalkVolumeSnapshots {St} :=
  @walker VolumeSnapshot St "VolumeSnapshots" (volumeSnapshotStore c).

Definition GetLogs (namespaceID podID : string) (containerNames : list string)
    : M (result ReadCloser) :=
  emit (EvGetLogs namespaceID podID containerNames) ;;;
  ret (doGetLogs c namespaceID podID containerNames).

Definition Describe (namespaceID resourceID : string)
    (groupKind : schema.GroupKind) : M (result ReadCloser) :=
  emit (EvDescribe namespaceID resourceID groupKind) ;;;
  ret (doDescribe c namespaceID resourceID groupKind).

Definition DeletePod (namespaceID podID : string) : M (option error) :=
  emit (EvDeletePod namespaceID podID) ;;;
  ret (doDeletePod c namespaceID podID).

Definition DeleteVolumeSnapshot (namespaceID volumeSnapshotID : string)
    : M (option error) :=
  emit (EvDeleteVolumeSnapshot namespaceID volumeSnapshotID) ;;;
  ret (doDeleteVolumeSnapshot c namespaceID volumeSnapshotID).

Definition CreateSnapshot (persistentVolumeID : string) : M (result string) :=
  emit (EvCreateSnapshot persistentVolumeID) ;;;
  ret (doCreateSnapshot c persistentVolumeID).

Definition CreateVolumeSnapshot
    (namespaceID persistentVolumeClaimID capacity : string)
    : M (option error) :=
  emit (EvCreateVolumeSnapshot namespaceID persistentVolumeClaimID capacity) ;;;
  ret (doCreateVolumeSnapshot c namespaceID persistentVolumeClaimID capacity).

Definition CloneVolumeSnapshot
    (namespaceID volumeSnapshotID persistentVolumeClaimID capacity : string)
    : M (option error) :=
  emit (EvCloneVolumeSnapshot namespaceID volumeSnapshotID
          persistentVolumeClaimID capacity) ;;;
  ret (doCloneVolumeSnapshot c namespaceID volumeSnapshotID
         persistentVolumeClaimID capacity).

Definition ScaleUp (kind namespaceID id : string) : M (option error) :=
  emit (EvScaleUp kind namespaceID id) ;;;
  ret (doScaleUp c kind namespaceID id).

Definition ScaleDown (kind namespaceID id : string) : M (option error) :=
  emit (EvScaleDown kind namespaceID id) ;;;
  ret (doScaleDown c kind namespaceID id).

End Methods.
End client.

(** ** Package [probe/controls]: pipes and the handler registry *)

Module controls.

(** The pipe transport behind [r.pipes]: given the session id and the
    duplex channel it answers with a pipe identifier or an error. *)
Record PipeClient := {
  PipeConnection : string -> ReadWriter -> result string
}.

Record Pipe := { pipe_id : string; pipe_remote : ReadWriter }.

(** Modelled from the spec: [controls.NewPipeFromEnds] is defined outside
    these files.  "Pipe registry/transport: accepts a duplex channel
    plus a session id, returns a pipe identifier or an error."  It is
    given the [ReadWriter] only, which has no [Close]. *)
Definition NewPipeFromEnds (local : option ReadWriter) (remote : ReadWriter)
    (c : PipeClient) (appID : string) : M (result (string * Pipe)) :=
  emit (EvNewPipeFromEnds remote appID) ;;;
  ret match PipeConnection c appID remote with
      | Ok id => Ok (id, {| pipe_id := id; pipe_remote := remote |})
      | Err err => Err err
      end.

(** [pipe.OnClose(cb)] records the callback to run when the pipe closes. *)
Definition OnClose (pipe : Pipe) (cb : Callback) : M unit :=
  emit (EvOnClose (pipe_id pipe) cb).

(** Running a pending callback, as the pipe does when it closes. *)
Definition run (cb : Callback) : M unit :=
  match cb with CloseStream rc => emit (EvClose rc) end.

(** Modelled from the spec: [HandlerRegistry.Batch] is defined outside
    these files.  "Control Registry: maps a control identifier (stable
    string) to its handler; supports atomic bulk registration and
    deregistration": one step that removes the identifiers of [toRemove]
    and then binds every entry of [toAdd]. *)
Definition Batch (toRemove : list string)
    (toAdd : gmap string xfer.ControlHandlerFunc)
    (registry : gmap string xfer.ControlHandlerFunc)
    : gmap string xfer.ControlHandlerFunc :=
  toAdd ∪ foldr delete registry toRemove.

(** Modelled from the spec: the request router is outside these
    files.  "an incoming control request carries a control identifier and
    a node identifier; registry dispatches to the bound handler".  What
    an unbound identifier is answered with is not described; an error
    response stands for it. *)
Definition HandleControlRequest
    (registry : gmap string xfer.ControlHandlerFunc)
    (req : xfer.Request) : M xfer.Response :=
  match registry !! xfer.Control req with
  | Some h => h req
  | None => ret (xfer.ResponseErrorf "Control not recognised: " (xfer.Control req))
  end.

End controls.

(** The fields of [Reporter] that the dispatcher touches.  The handler
    registry is threaded explicitly through [registerControls] and
    [deregisterControls]. *)
Record Reporter := {
  client : Client;
  pipes : controls.PipeClient
}.

Abbreviation HandlerRegistry := (gmap string xfer.ControlHandlerFunc).

(** ** [controls.go], current revision (the one with describe controls) *)

Module Part001.

(** Control IDs used by the kubernetes integration. *)
Module ControlID.
Section Constants.
Context `{report.Pkg}.
Definition CloneVolumeSnapshot := report.KubernetesCloneVolumeSnapshot.
Definition CreateVolumeSnapshot := report.KubernetesCreateVolumeSnapshot.
Definition GetLogs := report.KubernetesGetLogs.
Definition DescribePod := report.KubernetesDescribePod.
Definition DescribeService := report.KubernetesDescribeService.
Definition DescribeCronJob := report.KubernetesCronjob.
Definition DescribeDeployment := report.KubernetesDescribeDeployment.
Definition DescribeDaemonSet := report.KubernetesDescribeDaemonSet.
Definition DescribePVC := report.KubernetesDescribePVC.
Definition DescribePV := report.KubernetesDescribePV.
Definition DescribeSC := report.KubernetesDescribeSC.
Definition DescribeStatefulSet := report.KubernetesDescribeStatefulSet.
Definition DeletePod := report.KubernetesDeletePod.
Definition DeleteVolumeSnapshot := report.KubernetesDeleteVolumeSnapshot.
Definition ScaleUp := report.KubernetesScaleUp.
Definition ScaleDown := report.KubernetesScaleDown.
End Constants.
End ControlID.

Section Controls.
Context `{report.Pkg} `{Resources}.
Context (r : Reporter).

(** GetLogs is the control to get the logs for a kubernetes pod *)
Definition GetLogs (req : xfer.Request) (namespaceID podID : string)
    (containerNames : list string) (_ : schema.GroupKind) : M xfer.Response :=
  let* res := client.GetLogs (client r) namespaceID podID containerNames in
  match res with
  | Err err => ret (xfer.ResponseError (Some err))
  | Ok readCloser =>
      let readWriter := {| Reader := readCloser; Writer_ := Discard |} in
      let* res := controls.NewPipeFromEnds None readWriter (pipes r)
                    (xfer.AppID req) in
      match res with
      | Err err => ret (xfer.ResponseError (Some err))
      | Ok (id, pipe) =>
          controls.OnClose pipe (CloseStream readCloser) ;;;
          ret {| xfer.Value := ""; xfer.Error := ""; xfer.Pipe := id;
                 xfer.RemovedNode := "" |}
      end
  end.

Definition describe (req : xfer.Request) (namespaceID resourceID : string)
    (groupKind : schema.GroupKind) : M xfer.Response :=
  let* res := client.Describe (client r) namespaceID resourceID groupKind in
  match res with
  | Err err => ret (xfer.ResponseError (Some err))
  | Ok readCloser =>
      let readWriter := {| Reader := readCloser; Writer_ := Discard |} in
      let* res := controls.NewPipeFromEnds None readWriter (pipes r)
                    (xfer.AppID req) in
      match res with
      | Err err => ret (xfer.ResponseError (Some err))
      | Ok (id, pipe) =>
          controls.OnClose pipe (CloseStream readCloser) ;;;
          ret {| xfer.Value := ""; xfer.Error := ""; xfer.Pipe := id;
                 xfer.RemovedNode := "" |}
      end
  end.

Definition describePod (req : xfer.Request) (namespaceID podID : string)
    (_ : list string) (groupKind : schema.GroupKind) : M xfer.Response :=
  describe req namespaceID podID groupKind.

Definition describePVC (req : xfer.Request) (namespaceID pvcID : string)
    (_ : string) (groupKind : schema.GroupKind) : M xfer.Response :=
  describe req namespaceID pvcID groupKind.

Definition cloneVolumeSnapshot (req : xfer.Request)
    (namespaceID volumeSnapshotID persistentVolumeClaimID capacity : string)
    : M xfer.Response :=
  let* err := client.CloneVolumeSnapshot (client r) namespaceID
                volumeSnapshotID persistentVolumeClaimID capacity in
  match err with
  | Some err => ret (xfer.ResponseError (Some err))
  | None => ret xfer.empty
  end.

Definition createVolumeSnapshot (req : xfer.Request)
    (namespaceID persistentVolumeClaimID capacity : string)
    (_ : schema.GroupKind) : M xfer.Response :=
  let* err := client.CreateVolumeSnapshot (client r) namespaceID
                persistentVolumeClaimID capacity in
  match err with
  | Some err => ret (xfer.ResponseError (Some err))
  | None => ret xfer.empty
  end.

Definition deletePod (req : xfer.Request) (namespaceID podID : string)
    (_ : list string) (_ : schema.GroupKind) : M xfer.Response :=
  let* err := client.DeletePod (client r) namespaceID podID in
  match err with
  | Some err => ret (xfer.ResponseError (Some err))
  | None =>
      ret {| xfer.Value := ""; xfer.Error := ""; xfer.Pipe := "";
             xfer.RemovedNode := xfer.NodeID req |}
  end.

Definition deleteVolumeSnapshot (req : xfer.Request)
    (namespaceID volumeSnapshotID : string) (_ _ : string) : M xfer.Response :=
  let* err := client.DeleteVolumeSnapshot (client r) namespaceID
                volumeSnapshotID in
  match err with
  | Some err => ret (xfer.ResponseError (Some err))
  | None =>
      ret {| xfer.Value := ""; xfer.Error := ""; xfer.Pipe := "";
             xfer.RemovedNode := xfer.NodeID req |}
  end.

(** CapturePod is exported for testing *)
Definition CapturePod
    (f : xfer.Request -> string -> string -> list string ->
         schema.GroupKind -> M xfer.Response)
    : xfer.Request -> M xfer.Response :=
  fun req =>
    match report.ParsePodNodeID (xfer.NodeID req) with
    | None => ret (xfer.ResponseErrorf "Invalid ID: " (xfer.NodeID req))
    | Some uid =>
        (* find pod by UID *)
        let* (_, pod) :=
          client.WalkPods (client r)
            (fun (p : Pod) (pod : option Pod) =>
               if String.eqb (UID p) uid then (None, Some p) else (None, pod))
            None in
        match pod with
        | None => ret (xfer.ResponseErrorf "Pod not found: " uid)
        | Some pod =>
            f req (Namespace pod) (Name pod) (ContainerNames pod)
              (ResourceMap "Pod")
        end
    end.

(** CaptureDeployment is exported for testing *)
Definition CaptureDeployment
    (f : xfer.Request -> string -> string -> schema.GroupKind ->
         M xfer.Response)
    : xfer.Request -> M xfer.Response :=
  fun req =>
    match report.ParseDeploymentNodeID (xfer.NodeID req) with
    | None => ret (xfer.ResponseErrorf "Invalid ID: " (xfer.NodeID req))
    | Some uid =>
        let* (_, deployment) :=
          client.WalkDeployments (client r)
            (fun (d : Deployment) (deployment : option Deployment) =>
               if String.eqb (UID d) uid then (None, Some d)
               else (None, deployment))
            None in
        match deployment with
        | None => ret (xfer.ResponseErrorf "Deployment not found: " uid)
        | Some deployment =>
            f req (Namespace deployment) (Name deployment)
              (ResourceMap "Deployment")
        end
    end.

(** CapturePersistentVolumeClaim will return name, namespace and capacity
    of PVC *)
Definition CapturePersistentVolumeClaim
    (f : xfer.Request -> string -> string -> string -> schema.GroupKind ->
         M xfer.Response)
    : xfer.Request -> M xfer.Response :=
  fun req =>
    match report.ParsePersistentVolumeClaimNodeID (xfer.NodeID req) with
    | None => ret (xfer.ResponseErrorf "Invalid ID: " (xfer.NodeID req))
    | Some uid =>
        (* find persistentVolumeClaim by UID *)
        let* (_, persistentVolumeClaim) :=
          client.WalkPersistentVolumeClaims (client r)
            (fun (p : PersistentVolumeClaim)
                 (persistentVolumeClaim : option PersistentVolumeClaim) =>
               if String.eqb (UID p) uid then (None, Some p)
               else (None, persistentVolumeClaim))
            None in
        match persistentVolumeClaim with
        | None =>
            ret (xfer.ResponseErrorf "Persistent volume claim not found: " uid)
        | Some persistentVolumeClaim =>
            f req (Namespace persistentVolumeClaim)
              (Name persistentVolumeClaim)
              (GetCapacity persistentVolumeClaim)
              (ResourceMap "PersistentVolumeClaim")
        end
    end.

(** CaptureVolumeSnapshot will return name, pvc name, namespace and
    capacity of volume snapshot *)
Definition CaptureVolumeSnapshot
    (f : xfer.Request -> string -> string -> string -> string ->
         M xfer.Response)
    : xfer.Request -> M xfer.Response :=
  fun req =>
    match report.ParseVolumeSnapshotNodeID (xfer.NodeID req) with
    | None => ret (xfer.ResponseErrorf "Invalid ID: " (xfer.NodeID req))
    | Some uid =>
        (* find volume snapshot by UID *)
        let* (_, volumeSnapshot) :=
          client.WalkVolumeSnapshots (client r)
            (fun (p : VolumeSnapshot) (volumeSnapshot : option VolumeSnapshot) =>
               if String.eqb (UID p) uid then (None, Some p)
               else (None, volumeSnapshot))
            None in
        match volumeSnapshot with
        | None => ret (xfer.ResponseErrorf "Volume snapshot not found: " uid)
        | Some volumeSnapshot =>
            f req (Namespace volumeSnapshot) (Name volumeSnapshot)
              (GetVolumeName volumeSnapshot) (GetCapacity volumeSnapshot)
        end
    end.

(** CaptureService is exported for testing *)
Definition CaptureService
    (f : xfer.Request -> string -> string -> schema.GroupKind ->
         M xfer.Response)
    : xfer.Request -> M xfer.Response :=
  fun req =>
    match report.ParseServiceNodeID (xfer.NodeID req) with
    | None => ret (xfer.ResponseErrorf "Invalid ID: " (xfer.NodeID req))
    | Some uid =>
        let* (_, service) :=
          client.WalkServices (client r)
            (fun (s : Service) (service : option Service) =>
               if String.eqb (UID s) uid then (None, Some s)
               else (None, service))
            None in
        match service with
        | None => ret (xfer.ResponseErrorf "Service not found: " uid)
        | Some service =>
            f req (Namespace service) (Name service) (ResourceMap "Service")
        end
    end.

(** CaptureDaemonSet is exported for testing *)
Definition CaptureDaemonSet
    (f : xfer.Request -> string -> string -> schema.GroupKind ->
         M xfer.Response)
    : xfer.Request -> M xfer.Response :=
  fun req =>
    match report.ParseDaemonSetNodeID (xfer.NodeID req) with
    | None => ret (xfer.ResponseErrorf "Invalid ID: " (xfer.NodeID req))
    | Some uid =>
        let* (_, daemonSet) :=
          client.WalkDaemonSets (client r)
            (fun (d : DaemonSet) (daemonSet : option DaemonSet) =>
               if String.eqb (UID d) uid then (None, Some d)
               else (None, daemonSet))
            None in
        match daemonSet with
        | None => ret (xfer.ResponseErrorf "Daemon Set not found: " uid)
        | Some daemonSet =>
            f req (Namespace daemonSet) (Name daemonSet)
              (ResourceMap "DaemonSet")
        end
    end.

(** CaptureCronJob is exported for testing *)
Definition CaptureCronJob
    (f : xfer.Request -> string -> string -> schema.GroupKind ->
         M xfer.Response)
    : xfer.Request -> M xfer.Response :=
  fun req =>
    match report.ParseCronJobNodeID (xfer.NodeID req) with
    | None => ret (xfer.ResponseErrorf "Invalid ID: " (xfer.NodeID req))
    | Some uid =>
        let* (_, cronJob) :=
          client.WalkCronJobs (client r)
            (fun (c : CronJob) (cronJob : option CronJob) =>
               if String.eqb (UID c) uid then (None, Some c)
               else (None, cronJob))
            None in
        match cronJob with
        | None => ret (xfer.ResponseErrorf "Cron Job not found: " uid)
        | Some cronJob =>
            f req (Namespace cronJob) (Name cronJob) (ResourceMap "CronJob")
        end
    end.

(** CaptureStatefulSet is exported for testing *)
Definition CaptureStatefulSet
    (f : xfer.Request -> string -> string -> schema.GroupKind ->
         M xfer.Response)
    : xfer.Request -> M xfer.Response :=
  fun req =>
    match report.ParseStatefulSetNodeID (xfer.NodeID req) with
    | None => ret (xfer.ResponseErrorf "Invalid ID: " (xfer.NodeID req))
    | Some uid =>
        let* (_, statefulSet) :=
          client.WalkStatefulSets (client r)
            (fun (s : StatefulSet) (statefulSet : option StatefulSet) =>
               if String.eqb (UID s) uid then (None, Some s)
               else (None, statefulSet))
            None in
        match statefulSet with
        | None => ret (xfer.ResponseErrorf "Stateful Set not found: " uid)
        | Some statefulSet =>
            f req (Namespace statefulSet) (Name statefulSet)
              (ResourceMap "StatefulSet")
        end
    end.

(** CaptureStorageClass is exported for testing *)
Definition CaptureStorageClass
    (f : xfer.Request -> string -> string -> schema.GroupKind ->
         M xfer.Response)
    : xfer.Request -> M xfer.Response :=
  fun req =>
    match report.ParseStorageClassNodeID (xfer.NodeID req) with
    | None => ret (xfer.ResponseErrorf "Invalid ID: " (xfer.NodeID req))
    | Some uid =>
        let* (_, storageClass) :=
          client.WalkStorageClasses (client r)
            (fun (s : StorageClass) (storageClass : option StorageClass) =>
               if String.eqb (UID s) uid then (None, Some s)
               else (None, storageClass))
            None in
        match storageClass with
        | None => ret (xfer.ResponseErrorf "StorageClass not found: " uid)
        | Some storageClass =>
            f req "" (Name storageClass) (ResourceMap "StorageClass")
        end
    end.

(** CapturePersistentVolume will return name, namespace and capacity of
    PVC *)
Definition CapturePersistentVolume
    (f : xfer.Request -> string -> string -> schema.GroupKind ->
         M xfer.Response)
    : xfer.Request -> M xfer.Response :=
  fun req =>
    match report.ParsePersistentVolumeNodeID (xfer.NodeID req) with
    | None => ret (xfer.ResponseErrorf "Invalid ID: " (xfer.NodeID req))
    | Some uid =>
        (* find persistentVolume by UID *)
        let* (_, persistentVolume) :=
          client.WalkPersistentVolumes (client r)
            (fun (p : PersistentVolume)
                 (persistentVolume : option PersistentVolume) =>
               if String.eqb (UID p) uid then (None, Some p)
               else (None, persistentVolume))
            None in
        match persistentVolume with
        | None => ret (xfer.ResponseErrorf "Persistent volume  not found: " uid)
        | Some persistentVolume =>
            f req "" (Name persistentVolume) (ResourceMap "PersistentVolume")
        end
    end.

(** ScaleUp is the control to scale up a deployment *)
Definition ScaleUp (req : xfer.Request) (namespace id : string)
    (_ : schema.GroupKind) : M xfer.Response :=
  let* err := client.ScaleUp (client r) report.Deployment namespace id in
  ret (xfer.ResponseError err).

(** ScaleDown is the control to scale up a deployment *)
Definition ScaleDown (req : xfer.Request) (namespace id : string)
    (_ : schema.GroupKind) : M xfer.Response :=
  let* err := client.ScaleDown (client r) report.Deployment namespace id in
  ret (xfer.ResponseError err).

(** The map literal of [registerControls]. *)
Definition registered : list (string * xfer.ControlHandlerFunc) :=
  [ (ControlID.CloneVolumeSnapshot, CaptureVolumeSnapshot cloneVolumeSnapshot);
    (ControlID.CreateVolumeSnapshot,
       CapturePersistentVolumeClaim createVolumeSnapshot);
    (ControlID.GetLogs, CapturePod GetLogs);
    (ControlID.DescribePod, CapturePod describePod);
    (ControlID.DescribeService, CaptureService describe);
    (ControlID.DescribeCronJob, CaptureCronJob describe);
    (ControlID.DescribeDeployment, CaptureDeployment describe);
    (ControlID.DescribeDaemonSet, CaptureDaemonSet describe);
    (ControlID.DescribePVC, CapturePersistentVolumeClaim describePVC);
    (ControlID.DescribePV, CapturePersistentVolume describe);
    (ControlID.DescribeSC, CaptureStorageClass describe);
    (ControlID.DescribeStatefulSet, CaptureStatefulSet describe);
    (ControlID.DeletePod, CapturePod deletePod);
    (ControlID.DeleteVolumeSnapshot, CaptureVolumeSnapshot deleteVolumeSnapshot);
    (ControlID.ScaleUp, CaptureDeployment ScaleUp);
    (ControlID.ScaleDown, CaptureDeployment ScaleDown) ].

Definition registerControls (handlerRegistry : HandlerRegistry)
    : HandlerRegistry :=
  let controls : HandlerRegistry := list_to_map registered in
  controls.Batch [] controls handlerRegistry.

(** The slice literal of [deregisterControls]. *)
Definition deregistered : list string :=
  [ ControlID.CloneVolumeSnapshot;
    ControlID.CreateVolumeSnapshot;
    ControlID.GetLogs;
    ControlID.DeletePod;
    ControlID.DeleteVolumeSnapshot;
    ControlID.ScaleUp;
    ControlID.ScaleDown ].

Definition deregisterControls (handlerRegistry : HandlerRegistry)
    : HandlerRegistry :=
  let controls := deregistered in
  controls.Batch controls ∅ handlerRegistry.

End Controls.

(** *** The ten capture adapters seen as one family

    Each adapter is tabulated with its decoder, the store it walks, the
    prefix of its not-found message and the way it hands the attributes of
    the resolved handle to its continuation. *)

Inductive Adapter :=
| APod | ADeployment | APersistentVolumeClaim | AVolumeSnapshot | AService
| ADaemonSet | ACronJob | AStatefulSet | AStorageClass | APersistentVolume.

Definition Handle (a : Adapter) : Type :=
  match a with
  | APod => Pod
  | ADeployment => Deployment
  | APersistentVolumeClaim => PersistentVolumeClaim
  | AVolumeSnapshot => VolumeSnapshot
  | AService => Service
  | ADaemonSet => DaemonSet
  | ACronJob => CronJob
  | AStatefulSet => StatefulSet
  | AStorageClass => StorageClass
  | APersistentVolume => PersistentVolume
  end.

Definition Continuation (a : Adapter) : Type :=
  match a with
  | APod =>
      xfer.Request -> string -> string -> list string -> schema.GroupKind ->
      M xfer.Response
  | APersistentVolumeClaim =>
      xfer.Request -> string -> string -> string -> schema.GroupKind ->
      M xfer.Response
  | AVolumeSnapshot =>
      xfer.Request -> string -> string -> string -> string -> M xfer.Response
  | _ => xfer.Request -> string -> string -> schema.GroupKind -> M xfer.Response
  end.

Definition uid_of (a : Adapter) : Handle a -> string :=
  match a with
  | APod => fun h => UID h
  | ADeployment => fun h => UID h
  | APersistentVolumeClaim => fun h => UID h
  | AVolumeSnapshot => fun h => UID h
  | AService => fun h => UID h
  | ADaemonSet => fun h => UID h
  | ACronJob => fun h => UID h
  | AStatefulSet => fun h => UID h
  | AStorageClass => fun h => UID h
  | APersistentVolume => fun h => UID h
  end.

Definition store (a : Adapter) (c : Client) : list (Handle a) :=
  match a with
  | APod => podStore c
  | ADeployment => deploymentStore c
  | APersistentVolumeClaim => persistentVolumeClaimStore c
  | AVolumeSnapshot => volumeSnapshotStore c
  | AService => serviceStore c
  | ADaemonSet => daemonSetStore c
  | ACronJob => cronJobStore c
  | AStatefulSet => statefulSetStore c
  | AStorageClass => storageClassStore c
  | APersistentVolume => persistentVolumeStore c
  end.

Definition walked (a : Adapter) : Event :=
  match a with
  | APod => EvWalk "Pods"
  | ADeployment => EvWalk "Deployments"
  | APersistentVolumeClaim => EvWalk "PersistentVolumeClaims"
  | AVolumeSnapshot => EvWalk "VolumeSnapshots"
  | AService => EvWalk "Services"
  | ADaemonSet => EvWalk "DaemonSets"
  | ACronJob => EvWalk "CronJobs"
  | AStatefulSet => EvWalk "StatefulSets"
  | AStorageClass => EvWalk "StorageClasses"
  | APersistentVolume => EvWalk "PersistentVolumes"
  end.

Definition not_found (a : Adapter) : string :=
  match a with
  | APod => "Pod not found: "
  | ADeployment => "Deployment not found: "
  | APersistentVolumeClaim => "Persistent volume claim not found: "
  | AVolumeSnapshot => "Volume snapshot not found: "
  | AService => "Service not found: "
  | ADaemonSet => "Daemon Set not found: "
  | ACronJob => "Cron Job not found: "
  | AStatefulSet => "Stateful Set not found: "
  | AStorageClass => "StorageClass not found: "
  | APersistentVolume => "Persistent volume  not found: "
  end.

Section Family.
Context `{report.Pkg} `{Resources}.

Definition parse (a : Adapter) : string -> option string :=
  match a with
  | APod => report.ParsePodNodeID
  | ADeployment => report.ParseDeploymentNodeID
  | APersistentVolumeClaim => report.ParsePersistentVolumeClaimNodeID
  | AVolumeSnapshot => report.ParseVolumeSnapshotNodeID
  | AService => report.ParseServiceNodeID
  | ADaemonSet => report.ParseDaemonSetNodeID
  | ACronJob => report.ParseCronJobNodeID
  | AStatefulSet => report.ParseStatefulSetNodeID
  | AStorageClass => report.ParseStorageClassNodeID
  | APersistentVolume => report.ParsePersistentVolumeNodeID
  end.

Definition capture (r : Reporter) (a : Adapter)
    : Continuation a -> xfer.Request -> M xfer.Response :=
  match a with
  | APod => CapturePod r
  | ADeployment => CaptureDeployment r
  | APersistentVolumeClaim => CapturePersistentVolumeClaim r
  | AVolumeSnapshot => CaptureVolumeSnapshot r
  | AService => CaptureService r
  | ADaemonSet => CaptureDaemonSet r
  | ACronJob => CaptureCronJob r
  | AStatefulSet => CaptureStatefulSet r
  | AStorageClass => CaptureStorageClass r
  | APersistentVolume => CapturePersistentVolume r
  end.

(** The continuation applied to the attributes of a handle. *)
Definition invoke (a : Adapter)
    : Continuation a -> xfer.Request -> Handle a -> M xfer.Response :=
  match a with
  | APod => fun f req h =>
      f req (Namespace h) (Name h) (ContainerNames h) (ResourceMap "Pod")
  | ADeployment => fun f req h =>
      f req (Namespace h) (Name h) (ResourceMap "Deployment")
  | APersistentVolumeClaim => fun f req h =>
      f req (Namespace h) (Name h) (GetCapacity h)
        (ResourceMap "PersistentVolumeClaim")
  | AVolumeSnapshot => fun f req h =>
      f req (Namespace h) (Name h) (GetVolumeName h) (GetCapacity h)
  | AService => fun f req h =>
      f req (Namespace h) (Name h) (ResourceMap "Service")
  | ADaemonSet => fun f req h =>
      f req (Namespace h) (Name h) (ResourceMap "DaemonSet")
  | ACronJob => fun f req h =>
      f req (Namespace h) (Name h) (ResourceMap "CronJob")
  | AStatefulSet => fun f req h =>
      f req (Namespace h) (Name h) (ResourceMap "StatefulSet")
  | AStorageClass => fun f req h =>
      f req "" (Name h) (ResourceMap "StorageClass")
  | APersistentVolume => fun f req h =>
      f req "" (Name h) (ResourceMap "PersistentVolume")
  end.

End Family.

End Part001.

(** ** [controls.go], earlier revision (the one with [createSnapshot]) *)

Module Part000.

(** Control IDs used by the kubernetes integration. *)
Module ControlID.
Section Constants.
Context `{report.Pkg}.
Definition GetLogs := report.KubernetesGetLogs.
Definition CreateSnapshot := report.KubernetesCreateSnapshot.
Definition DeletePod := report.KubernetesDeletePod.
Definition DeleteVolumeSnapshot := report.KubernetesDeleteVolumeSnapshot.
Definition ScaleUp := report.KubernetesScaleUp.
Definition ScaleDown := report.KubernetesScaleDown.
End Constants.
End ControlID.

Section Controls.
Context `{report.Pkg}.
Context (r : Reporter).

(** GetLogs is the control to get the logs for a kubernetes pod *)
Definition GetLogs (req : xfer.Request) (namespaceID podID : string)
    (containerNames : list string) : M xfer.Response :=
  let* res := client.GetLogs (client r) namespaceID podID containerNames in
  match res with
  | Err err => ret (xfer.ResponseError (Some err))
  | Ok readCloser =>
      let readWriter := {| Reader := readCloser; Writer_ := Discard |} in
      let* res := controls.NewPipeFromEnds None readWriter (pipes r)
                    (xfer.AppID req) in
      match res with
      | Err err => ret (xfer.ResponseError (Some err))
      | Ok (id, pipe) =>
          controls.OnClose pipe (CloseStream readCloser) ;;;
          ret {| xfer.Value := ""; xfer.Error := ""; xfer.Pipe := id;
                 xfer.RemovedNode := "" |}
      end
  end.

Definition createSnapshot (req : xfer.Request) (persistentVolumeID : string)
    : M xfer.Response :=
  let* res := client.CreateSnapshot (client r) persistentVolumeID in
  match res with
  | Err err => ret (xfer.ResponseError (Some err))
  | Ok _ =>
      ret {| xfer.Value := xfer.Control req; xfer.Error := "";
             xfer.Pipe := ""; xfer.RemovedNode := "" |}
  end.

Definition deletePod (req : xfer.Request) (namespaceID podID : string)
    (_ : list string) : M xfer.Response :=
  let* err := client.DeletePod (client r) namespaceID podID in
  match err with
  | Some err => ret (xfer.ResponseError (Some err))
  | None =>
      ret {| xfer.Value := ""; xfer.Error := ""; xfer.Pipe := "";
             xfer.RemovedNode := xfer.NodeID req |}
  end.

Definition deleteVolumeSnapshot (req : xfer.Request)
    (namespaceID volumeSnapshotID : string) : M xfer.Response :=
  let* err := client.DeleteVolumeSnapshot (client r) namespaceID
                volumeSnapshotID in
  match err with
  | Some err => ret (xfer.ResponseError (Some err))
  | None =>
      ret {| xfer.Value := ""; xfer.Error := ""; xfer.Pipe := "";
             xfer.RemovedNode := xfer.NodeID req |}
  end.

(** CapturePod is exported for testing *)
Definition CapturePod
    (f : xfer.Request -> string -> string -> list string -> M xfer.Response)
    : xfer.Request -> M xfer.Response :=
  fun req =>
    match report.ParsePodNodeID (xfer.NodeID req) with
    | None => ret (xfer.ResponseErrorf "Invalid ID: " (xfer.NodeID req))
    | Some uid =>
        (* find pod by UID *)
        let* (_, pod) :=
          client.WalkPods (client r)
            (fun (p : Pod) (pod : option Pod) =>
               if String.eqb (UID p) uid then (None, Some p) else (None, pod))
            None in
        match pod with
        | None => ret (xfer.ResponseErrorf "Pod not found: " uid)
        | Some pod => f req (Namespace pod) (Name pod) (ContainerNames pod)
        end
    end.

(** CaptureDeployment is exported for testing *)
Definition CaptureDeployment
    (f : xfer.Request -> string -> string -> M xfer.Response)
    : xfer.Request -> M xfer.Response :=
  fun req =>
    match report.ParseDeploymentNodeID (xfer.NodeID req) with
    | None => ret (xfer.ResponseErrorf "Invalid ID: " (xfer.NodeID req))
    | Some uid =>
        let* (_, deployment) :=
          client.WalkDeployments (client r)
            (fun (d : Deployment) (deployment : option Deployment) =>
               if String.eqb (UID d) uid then (None, Some d)
               else (None, deployment))
            None in
        match deployment with
        | None => ret (xfer.ResponseErrorf "Deployment not found: " uid)
        | Some deployment => f req (Namespace deployment) (Name deployment)
        end
    end.

(** CapturePersistentVolume is exported for testing *)
Definition CapturePersistentVolume
    (f : xfer.Request -> string -> M xfer.Response)
    : xfer.Request -> M xfer.Response :=
  fun req =>
    match report.ParsePersistentVolumeNodeID (xfer.NodeID req) with
    | None => ret (xfer.ResponseErrorf "Invalid ID: " (xfer.NodeID req))
    | Some uid =>
        let* (_, persistentVolume) :=
          client.WalkPersistentVolumes (client r)
            (fun (p : PersistentVolume)
                 (persistentVolume : option PersistentVolume) =>
               if String.eqb (UID p) uid then (None, Some p)
               else (None, persistentVolume))
            None in
        match persistentVolume with
        | None => ret (xfer.ResponseErrorf "Persistent Volume not found: " uid)
        | Some persistentVolume => f req (Name persistentVolume)
        end
    end.

(** CaptureVolumeSnapshot is exported for testing *)
Definition CaptureVolumeSnapshot
    (f : xfer.Request -> string -> string -> M xfer.Response)
    : xfer.Request -> M xfer.Response :=
  fun req =>
    match report.ParseVolumeSnapshotNodeID (xfer.NodeID req) with
    | None => ret (xfer.ResponseErrorf "Invalid ID: " (xfer.NodeID req))
    | Some uid =>
        let* (_, volumeSnapshot) :=
          client.WalkVolumeSnapshots (client r)
            (fun (p : VolumeSnapshot) (volumeSnapshot : option VolumeSnapshot) =>
               if String.eqb (UID p) uid then (None, Some p)
               else (None, volumeSnapshot))
            None in
        match volumeSnapshot with
        | None => ret (xfer.ResponseErrorf "VolumeSnapshot not found: " uid)
        | Some volumeSnapshot =>
            f req (Namespace volumeSnapshot) (Name volumeSnapshot)
        end
    end.

(** ScaleUp is the control to scale up a deployment *)
Definition ScaleUp (req : xfer.Request) (namespace id : string)
    : M xfer.Response :=
  let* err := client.ScaleUp (client r) report.Deployment namespace id in
  ret (xfer.ResponseError err).

(** ScaleDown is the control to scale up a deployment *)
Definition ScaleDown (req : xfer.Request) (namespace id : string)
    : M xfer.Response :=
  let* err := client.ScaleDown (client r) report.Deployment namespace id in
  ret (xfer.ResponseError err).

(** The map literal of [registerControls]. *)
Definition registered : list (string * xfer.ControlHandlerFunc) :=
  [ (ControlID.GetLogs, CapturePod GetLogs);
    (ControlID.CreateSnapshot, CapturePersistentVolume createSnapshot);
    (ControlID.DeletePod, CapturePod deletePod);
    (ControlID.DeleteVolumeSnapshot, CaptureVolumeSnapshot deleteVolumeSnapshot);
    (ControlID.ScaleUp, CaptureDeployment ScaleUp);
    (ControlID.ScaleDown, CaptureDeployment ScaleDown) ].

Definition registerControls (handlerRegistry : HandlerRegistry)
    : HandlerRegistry :=
  let controls : HandlerRegistry := list_to_map registered in
  controls.Batch [] controls handlerRegistry.

(** The slice literal of [deregisterControls]. *)
Definition deregistered : list string :=
  [ ControlID.GetLogs;
    ControlID.CreateSnapshot;
    ControlID.DeletePod;
    ControlID.DeleteVolumeSnapshot;
    ControlID.ScaleUp;
    ControlID.ScaleDown ].

Definition deregisterControls (handlerRegistry : HandlerRegistry)
    : HandlerRegistry :=
  let controls := deregistered in
  controls.Batch controls ∅ handlerRegistry.

End Controls.

(** *** The four capture adapters seen as one family *)

Inductive Adapter :=
| APod | ADeployment | APersistentVolume | AVolumeSnapshot.

Definition Handle (a : Adapter) : Type :=
  match a with
  | APod => Pod
  | ADeployment => Deployment
  | APersistentVolume => PersistentVolume
  | AVolumeSnapshot => VolumeSnapshot
  end.

Definition Continuation (a : Adapter) : Type :=
  match a with
  | APod => xfer.Request -> string -> string -> list string -> M xfer.Response
  | ADeployment => xfer.Request -> string -> string -> M xfer.Response
  | APersistentVolume => xfer.Request -> string -> M xfer.Response
  | AVolumeSnapshot => xfer.Request -> string -> string -> M xfer.Response
  end.

Definition uid_of (a : Adapter) : Handle a -> string :=
  match a with
  | APod => fun h => UID h
  | ADeployment => fun h => UID h
  | APersistentVolume => fun h => UID h
  | AVolumeSnapshot => fun h => UID h
  end.

Definition store (a : Adapter) (c : Client) : list (Handle a) :=
  match a with
  | APod => podStore c
  | ADeployment => deploymentStore c
  | APersistentVolume => persistentVolumeStore c
  | AVolumeSnapshot => volumeSnapshotStore c
  end.

Definition walked (a : Adapter) : Event :=
  match a with
  | APod => EvWalk "Pods"
  | ADeployment => EvWalk "Deployments"
  | APersistentVolume => EvWalk "PersistentVolumes"
  | AVolumeSnapshot => EvWalk "VolumeSnapshots"
  end.

Definition not_found (a : Adapter) : string :=
  match a with
  | APod => "Pod not found: "
  | ADeployment => "Deployment not found: "
  | APersistentVolume => "Persistent Volume not found: "
  | AVolumeSnapshot => "VolumeSnapshot not found: "
  end.

Section Family.
Context `{report.Pkg}.

Definition parse (a : Adapter) : string -> option string :=
  match a with
  | APod => report.ParsePodNodeID
  | ADeployment => report.ParseDeploymentNodeID
  | APersistentVolume => report.ParsePersistentVolumeNodeID
  | AVolumeSnapshot => report.ParseVolumeSnapshotNodeID
  end.

Definition capture (r : Reporter) (a : Adapter)
    : Continuation a -> xfer.Request -> M xfer.Response :=
  match a with
  | APod => CapturePod r
  | ADeployment => CaptureDeployment r
  | APersistentVolume => CapturePersistentVolume r
  | AVolumeSnapshot => CaptureVolumeSnapshot r
  end.

(** The continuation applied to the attributes of a handle. *)
Definition invoke (a : Adapter)
    : Continuation a -> xfer.Request -> Handle a -> M xfer.Response :=
  match a with
  | APod => fun f req h => f req (Namespace h) (Name h) (ContainerNames h)
  | ADeployment => fun f req h => f req (Namespace h) (Name h)
  | APersistentVolume => fun f req h => f req (Name h)
  | AVolumeSnapshot => fun f req h => f req (Namespace h) (Name h)
  end.

End Family.

End Part000.

(** ** The visitor shared by every capture adapter *)

(** Every adapter walks its store with a closure of the same shape: remember
    the handle when its unique id is the wanted one, never report an error. *)
Definition select {A : Type} (u : A -> string) (uid : string)
    : A -> option A -> option error * option A :=
  fun x found => if String.eqb (u x) uid then (None, Some x) else (None, found).

(** The last handle of a store that carries the wanted unique id. *)
Definition last_match {A : Type} (u : A -> string) (uid : string)
    (store : list A) : option A :=
  last (List.filter (fun x => String.eqb (u x) uid) store).

(** Counting events of one sort in a world. *)
Definition calls (p : Event -> bool) (w : World) : nat :=
  length (List.filter p w).

Definition is_DeletePod (e : Event) : bool :=
  match e with EvDeletePod _ _ => true | _ => false end.

(** ** A concrete environment

    An instance of the parameters on which the embedding can be run.  The
    control identifiers quoted in the specification keep their spelling, the
    others follow the same pattern; node identifiers are spelled
    [<tag>:<uid>]. *)

Module Example.

Definition parse_tagged (tag id : string) : option string :=
  if String.prefix tag id
  then Some (String.substring (String.length tag)
               (String.length id - String.length tag) id)
  else None.

Definition pkg : report.Pkg := {|
  report.ParsePodNodeID := parse_tagged "pod:";
  report.ParseDeploymentNodeID := parse_tagged "deployment:";
  report.ParsePersistentVolumeClaimNodeID := parse_tagged "pvc:";
  report.ParsePersistentVolumeNodeID := parse_tagged "pv:";
  report.ParseVolumeSnapshotNodeID := parse_tagged "snapshot:";
  report.ParseServiceNodeID := parse_tagged "service:";
  report.ParseDaemonSetNodeID := parse_tagged "daemonset:";
  report.ParseCronJobNodeID := parse_tagged "cronjob:";
  report.ParseStatefulSetNodeID := parse_tagged "statefulset:";
  report.ParseStorageClassNodeID := parse_tagged "sc:";
  report.MakeVolumeSnapshotNodeID := String.append "snapshot:";
  report.Deployment := "deployment";
  report.KubernetesCloneVolumeSnapshot := "kubernetes_clone_volume_snapshot";
  report.KubernetesCreateVolumeSnapshot := "kubernetes_create_volume_snapshot";
  report.KubernetesCreateSnapshot := "kubernetes_create_snapshot";
  report.KubernetesGetLogs := "kubernetes_get_logs";
  report.KubernetesDescribePod := "kubernetes_describe_pod";
  report.KubernetesDescribeService := "kubernetes_describe_service";
  report.KubernetesCronjob := "kubernetes_describe_cronjob";
  report.KubernetesDescribeDeployment := "kubernetes_describe_deployment";
  report.KubernetesDescribeDaemonSet := "kubernetes_describe_daemonset";
  report.KubernetesDescribePVC := "kubernetes_describe_pvc";
  report.KubernetesDescribePV := "kubernetes_describe_pv";
  report.KubernetesDescribeSC := "kubernetes_describe_sc";
  report.KubernetesDescribeStatefulSet := "kubernetes_describe_statefulset";
  report.KubernetesDeletePod := "kubernetes_delete_pod";
  report.KubernetesDeleteVolumeSnapshot := "kubernetes_delete_volume_snapshot";
  report.KubernetesScaleUp := "kubernetes_scale_up";
  report.KubernetesScaleDown := "kubernetes_scale_down"
|}.

Definition resources : Resources :=
  fun kind => {| schema.Group := ""; schema.Kind := kind |}.

Definition meta (uid ns name : string) : Meta :=
  {| UID := uid; Name := name; Namespace := ns |}.

Definition foo : Pod :=
  {| pod_Meta := meta "abc" "ns1" "foo"; ContainerNames := ["main"] |}.
Definition foo' : Pod :=
  {| pod_Meta := meta "abc" "ns2" "foo-old"; ContainerNames := ["side"] |}.
Definition bar : Pod :=
  {| pod_Meta := meta "xyz" "ns1" "bar"; ContainerNames := [] |}.

Definition stream : ReadCloser := {| handle := 7 |}.

(** A cluster whose every operation succeeds. *)
Definition cluster (pods : list Pod) : Client := {|
  podStore := pods;
  deploymentStore := [ {| deployment_Meta := meta "d1" "ns1" "web" |} ];
  serviceStore := [];
  daemonSetStore := [];
  cronJobStore := [];
  statefulSetStore := [];
  storageClassStore := [ {| storageClass_Meta := meta "s1" "ns9" "fast" |} ];
  persistentVolumeStore :=
    [ {| persistentVolume_Meta := meta "v1" "ns9" "disk" |} ];
  persistentVolumeClaimStore :=
    [ {| persistentVolumeClaim_Meta := meta "c1" "ns1" "claim";
         pvc_capacity := "5Gi" |} ];
  volumeSnapshotStore :=
    [ {| volumeSnapshot_Meta := meta "p1" "ns1" "snap";
         GetVolumeName := "claim"; vs_capacity := "5Gi" |} ];
  doGetLogs := fun _ _ _ => Ok stream;
  doDescribe := fun _ _ _ => Ok stream;
  doDeletePod := fun _ _ => None;
  doDeleteVolumeSnapshot := fun _ _ => None;
  doCreateSnapshot := fun _ => Ok "snapshot";
  doCreateVolumeSnapshot := fun _ _ _ => None;
  doCloneVolumeSnapshot := fun _ _ _ _ => None;
  doScaleUp := fun _ _ _ => None;
  doScaleDown := fun _ _ _ => None
|}.

(** A pipe transport that knows no session. *)
Definition no_session : controls.PipeClient :=
  {| controls.PipeConnection := fun _ _ => Err "unknown session" |}.

Definition reporter (pods : list Pod) : Reporter :=
  {| client := cluster pods; pipes := no_session |}.

Definition request (control nodeID : string) : xfer.Request :=
  {| xfer.AppID := "app"; xfer.NodeID := nodeID; xfer.Control := control;
     xfer.ControlArgs := [] |}.

End Example.

#[local] Existing Instances Example.pkg Example.resources.

(** ** [volumesnapshot.go]

    [GetNode] publishes a volume snapshot as a report node whose identifier is
    [report.MakeVolumeSnapshotNodeID(p.UID())]; the rest of the node (built
    by [MetaNode], outside these files) plays no part in dispatching.
    This is the identifier a later control request carries. *)
Definition GetNode_ID `{report.Pkg} (p : VolumeSnapshot) : string :=
  report.MakeVolumeSnapshotNodeID (UID p).

(** ** Observations on responses and traces *)

Definition populated_field (s : string) : nat :=
  match s with
  | EmptyString => 0
  | String _ _ => 1
  end.

(** How many fields of a response are populated (not Go's zero value). *)
Definition populated (resp : xfer.Response) : nat :=
  populated_field (xfer.Value resp) + populated_field (xfer.Error resp)
  + populated_field (xfer.Pipe resp) + populated_field (xfer.RemovedNode resp).

Definition is_walk (e : Event) : bool :=
  match e with EvWalk _ => true | _ => false end.

Definition is_stream_op (e : Event) : bool :=
  match e with EvGetLogs _ _ _ | EvDescribe _ _ _ => true | _ => false end.

(** The effects one dispatch may leave behind, in order: nothing; a walk; a
    walk and one client operation; for a streaming operation, also the
    registration attempt; and after a successful registration, the close
    callback for the very stream that was registered. *)
Definition dispatch_shape (d : list Event) : bool :=
  match d with
  | [] => true
  | [EvWalk _] => true
  | [EvWalk _; op] => is_client_op op
  | [EvWalk _; op; EvNewPipeFromEnds _ _] => is_stream_op op
  | [EvWalk _; op; EvNewPipeFromEnds rw _; EvOnClose _ (CloseStream rc)] =>
      is_stream_op op && Nat.eqb (handle rc) (handle (Reader rw))
  | _ => false
  end.

(** More concrete collaborators: a pipe transport that accepts every
    session, and a cluster that refuses every operation. *)
Module Scenario.

Definition accepting : controls.PipeClient :=
  {| controls.PipeConnection := fun _ _ => Ok "pipe-1" |}.

Definition refusing (c : Client) : Client := {|
  podStore := podStore c;
  deploymentStore := deploymentStore c;
  serviceStore := serviceStore c;
  daemonSetStore := daemonSetStore c;
  cronJobStore := cronJobStore c;
  statefulSetStore := statefulSetStore c;
  storageClassStore := storageClassStore c;
  persistentVolumeStore := persistentVolumeStore c;
  persistentVolumeClaimStore := persistentVolumeClaimStore c;
  volumeSnapshotStore := volumeSnapshotStore c;
  doGetLogs := fun _ _ _ => Err "refused";
  doDescribe := fun _ _ _ => Err "refused";
  doDeletePod := fun _ _ => Some "refused";
  doDeleteVolumeSnapshot := fun _ _ => Some "refused";
  doCreateSnapshot := fun _ => Err "refused";
  doCreateVolumeSnapshot := fun _ _ _ => Some "refused";
  doCloneVolumeSnapshot := fun _ _ _ _ => Some "refused";
  doScaleUp := fun _ _ _ => Some "refused";
  doScaleDown := fun _ _ _ => Some "refused"
|}.

Definition connected (pods : list Pod) : Reporter :=
  {| client := Example.cluster pods; pipes := accepting |}.

Definition refused (pods : list Pod) : Reporter :=
  {| client := refusing (Example.cluster pods); pipes := accepting |}.

End Scenario.

(** ** The describe controls, tabulated

    Which control identifier [registerControls] of the current revision
    binds to [describe] behind each adapter (none behind the volume-snapshot
    adapter), and what the adapter makes of a handle: the key it looks up in
    [ResourceMap] and the namespace it passes on. *)
Definition describe_control `{report.Pkg} (a : Part001.Adapter)
    : option string :=
  match a with
  | Part001.APod => Some Part001.ControlID.DescribePod
  | Part001.ADeployment => Some Part001.ControlID.DescribeDeployment
  | Part001.APersistentVolumeClaim => Some Part001.ControlID.DescribePVC
  | Part001.AVolumeSnapshot => None
  | Part001.AService => Some Part001.ControlID.DescribeService
  | Part001.ADaemonSet => Some Part001.ControlID.DescribeDaemonSet
  | Part001.ACronJob => Some Part001.ControlID.DescribeCronJob
  | Part001.AStatefulSet => Some Part001.ControlID.DescribeStatefulSet
  | Part001.AStorageClass => Some Part001.ControlID.DescribeSC
  | Part001.APersistentVolume => Some Part001.ControlID.DescribePV
  end.

Definition resource_key (a : Part001.Adapter) : string :=
  match a with
  | Part001.APod => "Pod"
  | Part001.ADeployment => "Deployment"
  | Part001.APersistentVolumeClaim => "PersistentVolumeClaim"
  | Part001.AVolumeSnapshot => "VolumeSnapshot"
  | Part001.AService => "Service"
  | Part001.ADaemonSet => "DaemonSet"
  | Part001.ACronJob => "CronJob"
  | Part001.AStatefulSet => "StatefulSet"
  | Part001.AStorageClass => "StorageClass"
  | Part001.APersistentVolume => "PersistentVolume"
  end.

Definition meta_of (a : Part001.Adapter) : Part001.Handle a -> Meta :=
  match a with
  | Part001.APod => fun h => pod_Meta h
  | Part001.ADeployment => fun h => deployment_Meta h
  | Part001.APersistentVolumeClaim => fun h => persistentVolumeClaim_Meta h
  | Part001.AVolumeSnapshot => fun h => volumeSnapshot_Meta h
  | Part001.AService => fun h => service_Meta h
  | Part001.ADaemonSet => fun h => daemonSet_Meta h
  | Part001.ACronJob => fun h => cronJob_Meta h
  | Part001.AStatefulSet => fun h => statefulSet_Meta h
  | Part001.AStorageClass => fun h => storageClass_Meta h
  | Part001.APersistentVolume => fun h => persistentVolume_Meta h
  end.

Definition passed_namespace (a : Part001.Adapter) (h : Part001.Handle a)
    : string :=
  match a with
  | Part001.AStorageClass | Part001.APersistentVolume => ""
  | _ => Namespace (meta_of a h)
  end.

(** * Facts *)

(** ** The selecting visitor *)

Section Select.
Context {A : Type} (u : A -> string) (uid : string).

Lemma walk_select (store : list A) (found : option A) :
  walk store (select u uid) found =
    (None, match last_match u uid store with
           | Some x => Some x
           | None => found
           end).
Proof.
  revert found. induction store as [|x store IH]; intros found; [done|].
  cbn [walk]. unfold select at 1, last_match. cbn [List.filter].
  destruct (String.eqb (u x) uid) eqn:E.
  - rewrite IH. unfold last_match. f_equal. rewrite last_cons.
    by destruct (last _).
  - by rewrite IH.
Qed.

(** The visitor never reports an error, so every handle is visited. *)
Lemma visited_select (store : list A) (found : option A) :
  visited store (select u uid) found = length store.
Proof.
  revert found. induction store as [|x store IH]; intros found; [done|].
  cbn [visited length]. unfold select at 1.
  destruct (String.eqb (u x) uid); by rewrite IH.
Qed.

Lemma last_match_None (store : list A) :
  Forall (fun x => u x ≠ uid) store → last_match u uid store = None.
Proof.
  intros HF. unfold last_match.
  replace (List.filter _ store) with (@nil A); [done|].
  induction HF as [|x l Hx _ IH]; [done|]. cbn [List.filter].
  destruct (String.eqb_spec (u x) uid); [done|exact IH].
Qed.

Lemma last_match_app (l1 l2 : list A) (x : A) :
  u x = uid → Forall (fun y => u y ≠ uid) l2 →
  last_match u uid (l1 ++ x :: l2) = Some x.
Proof.
  intros Hx HF. unfold last_match.
  rewrite List.filter_app. cbn [List.filter].
  rewrite (proj2 (String.eqb_eq _ _) Hx).
  pose proof (last_match_None l2 HF) as HN. unfold last_match in HN.
  destruct (List.filter _ l2) as [|y l] eqn:F.
  - by rewrite last_snoc.
  - exfalso. assert (Hy : In y (List.filter (fun x => String.eqb (u x) uid) l2))
      by (rewrite F; left; done).
    apply List.filter_In in Hy as [Hy1 Hy2].
    apply String.eqb_eq in Hy2.
    rewrite Forall_forall in HF. apply (HF y); [by apply list_elem_of_In|done].
Qed.

Lemma last_match_Some (store : list A) (x : A) :
  last_match u uid store = Some x → x ∈ store ∧ u x = uid.
Proof.
  unfold last_match. intros HL.
  assert (Hin : In x (List.filter (fun y => String.eqb (u y) uid) store)).
  { apply list_elem_of_In. apply last_Some in HL as [l ->].
    apply elem_of_app. right. by apply list_elem_of_singleton. }
  apply List.filter_In in Hin as [H1 H2].
  split; [by apply list_elem_of_In|by apply String.eqb_eq].
Qed.

Lemma last_match_is_Some (store : list A) (x : A) :
  x ∈ store → u x = uid → is_Some (last_match u uid store).
Proof.
  intros Hin Hx. unfold last_match.
  assert (Hf : In x (List.filter (fun y => String.eqb (u y) uid) store)).
  { apply List.filter_In. split; [by apply list_elem_of_In|].
    by apply String.eqb_eq. }
  destruct (List.filter _ store) as [|y l] eqn:F; [destruct Hf|].
  destruct (last (y :: l)) eqn:L; [by eexists|].
  by apply last_None in L.
Qed.

End Select.

(** ** Every capture adapter is the same resolver *)

(** The generic resolve-then-invoke algorithm, written once: decode, walk,
    keep the last match, invoke. *)
Lemma Part001_capture_eq `{report.Pkg} `{Resources} (r : Reporter)
    (a : Part001.Adapter) (f : Part001.Continuation a)
    (req : xfer.Request) (w : World) :
  Part001.capture r a f req w =
    match Part001.parse a (xfer.NodeID req) with
    | None => (xfer.ResponseErrorf "Invalid ID: " (xfer.NodeID req), w)
    | Some uid =>
        match last_match (Part001.uid_of a) uid
                (Part001.store a (client r)) with
        | None =>
            (xfer.ResponseErrorf (Part001.not_found a) uid,
             w ++ [Part001.walked a])
        | Some h => Part001.invoke a f req h (w ++ [Part001.walked a])
        end
    end.
Proof.
  destruct a; cbn [Part001.capture Part001.parse Part001.uid_of Part001.store
                   Part001.walked Part001.not_found Part001.invoke];
    unfold Part001.CapturePod, Part001.CaptureDeployment,
      Part001.CapturePersistentVolumeClaim, Part001.CaptureVolumeSnapshot,
      Part001.CaptureService, Part001.CaptureDaemonSet, Part001.CaptureCronJob,
      Part001.CaptureStatefulSet, Part001.CaptureStorageClass,
      Part001.CapturePersistentVolume;
    match goal with
    | |- context [match ?p (xfer.NodeID req) with _ => _ end] =>
        destruct (p (xfer.NodeID req)) as [uid|]; [|reflexivity]
    end;
    unfold bind, client.WalkPods, client.WalkDeployments,
      client.WalkPersistentVolumeClaims, client.WalkVolumeSnapshots,
      client.WalkServices, client.WalkDaemonSets, client.WalkCronJobs,
      client.WalkStatefulSets, client.WalkStorageClasses,
      client.WalkPersistentVolumes, client.walker, bind, emit, ret;
    match goal with
    | |- context [@walk ?A _ ?s ?v None] =>
        change v with (@select A (fun x : A => UID x) uid);
        rewrite (walk_select (fun x : A => UID x) uid s None)
    end;
    destruct (last_match _ uid _); reflexivity.
Qed.

Lemma Part000_capture_eq `{report.Pkg} (r : Reporter)
    (a : Part000.Adapter) (f : Part000.Continuation a)
    (req : xfer.Request) (w : World) :
  Part000.capture r a f req w =
    match Part000.parse a (xfer.NodeID req) with
    | None => (xfer.ResponseErrorf "Invalid ID: " (xfer.NodeID req), w)
    | Some uid =>
        match last_match (Part000.uid_of a) uid
                (Part000.store a (client r)) with
        | None =>
            (xfer.ResponseErrorf (Part000.not_found a) uid,
             w ++ [Part000.walked a])
        | Some h => Part000.invoke a f req h (w ++ [Part000.walked a])
        end
    end.
Proof.
  destruct a; cbn [Part000.capture Part000.parse Part000.uid_of Part000.store
                   Part000.walked Part000.not_found Part000.invoke];
    unfold Part000.CapturePod, Part000.CaptureDeployment,
      Part000.CapturePersistentVolume, Part000.CaptureVolumeSnapshot;
    match goal with
    | |- context [match ?p (xfer.NodeID req) with _ => _ end] =>
        destruct (p (xfer.NodeID req)) as [uid|]; [|reflexivity]
    end;
    unfold bind, client.WalkPods, client.WalkDeployments,
      client.WalkVolumeSnapshots, client.WalkPersistentVolumes,
      client.walker, bind, emit, ret;
    match goal with
    | |- context [@walk ?A _ ?s ?v None] =>
        change v with (@select A (fun x : A => UID x) uid);
        rewrite (walk_select (fun x : A => UID x) uid s None)
    end;
    destruct (last_match _ uid _); reflexivity.
Qed.

(** ** Malformed identifiers *)

(** C3.  For every capture adapter of either revision and every request
    whose node identifier the adapter's decoder rejects, the adapter answers
    ["Invalid ID: <node id>"] and leaves the world exactly as it found it.
    As this holds for every continuation [f] and every client, nothing was
    walked, [f] was not run and the client was not called. *)
Theorem capture_invalid_identifier `{report.Pkg} `{Resources}
    (r : Reporter) (req : xfer.Request) (w : World) :
  (∀ (a : Part001.Adapter) (f : Part001.Continuation a),
     Part001.parse a (xfer.NodeID req) = None →
     Part001.capture r a f req w =
       (xfer.ResponseErrorf "Invalid ID: " (xfer.NodeID req), w))
  ∧
  (∀ (a : Part000.Adapter) (f : Part000.Continuation a),
     Part000.parse a (xfer.NodeID req) = None →
     Part000.capture r a f req w =
       (xfer.ResponseErrorf "Invalid ID: " (xfer.NodeID req), w)).
Proof.
  split; intros a f Hparse.
  - by rewrite Part001_capture_eq, Hparse.
  - by rewrite Part000_capture_eq, Hparse.
Qed.

Lemma capture_invalid_identifier_witness :
  let r := Example.reporter [Example.foo] in
  let req := Example.request "kubernetes_delete_pod" "deployment:abc" in
  (report.ParsePodNodeID (xfer.NodeID req) = None ∧
   Part001.CapturePod r (Part001.deletePod r) req [] =
     (xfer.ResponseErrorf "Invalid ID: " "deployment:abc", []))
  ∧
  (report.ParseVolumeSnapshotNodeID (xfer.NodeID req) = None ∧
   Part000.CaptureVolumeSnapshot r (Part000.deleteVolumeSnapshot r) req [] =
     (xfer.ResponseErrorf "Invalid ID: " "deployment:abc", [])).
Proof.
  intros r req.
  destruct (capture_invalid_identifier r req []) as [H1 H0].
  split; (split; [reflexivity|]).
  - apply (H1 Part001.APod (Part001.deletePod r)). reflexivity.
  - apply (H0 Part000.AVolumeSnapshot (Part000.deleteVolumeSnapshot r)).
    reflexivity.
Defined.

(** ** Unknown resources *)

(** C4.  For every capture adapter of either revision: when the node
    identifier decodes to [uid] and no handle of the walked store carries
    that unique id (an empty store included), the adapter answers with its
    not-found message for [uid]; the only thing that happened is the walk,
    so no client operation ran, whatever the continuation would have
    done. *)
Theorem capture_not_found `{report.Pkg} `{Resources}
    (r : Reporter) (req : xfer.Request) (w : World) (uid : string) :
  (∀ (a : Part001.Adapter) (f : Part001.Continuation a),
     Part001.parse a (xfer.NodeID req) = Some uid →
     Forall (fun h => Part001.uid_of a h ≠ uid) (Part001.store a (client r)) →
     let out := Part001.capture r a f req w in
     out.1 = xfer.ResponseErrorf (Part001.not_found a) uid
     ∧ out.2 = w ++ [Part001.walked a]
     ∧ calls is_client_op out.2 = calls is_client_op w)
  ∧
  (∀ (a : Part000.Adapter) (f : Part000.Continuation a),
     Part000.parse a (xfer.NodeID req) = Some uid →
     Forall (fun h => Part000.uid_of a h ≠ uid) (Part000.store a (client r)) →
     let out := Part000.capture r a f req w in
     out.1 = xfer.ResponseErrorf (Part000.not_found a) uid
     ∧ out.2 = w ++ [Part000.walked a]
     ∧ calls is_client_op out.2 = calls is_client_op w).
Proof.
  split; intros a f Hparse Hnone out; subst out.
  - rewrite Part001_capture_eq, Hparse, (last_match_None _ _ _ Hnone).
    cbn [fst snd]. split; [done|]. split; [done|].
    unfold calls. rewrite List.filter_app, length_app.
    destruct a; cbn; lia.
  - rewrite Part000_capture_eq, Hparse, (last_match_None _ _ _ Hnone).
    cbn [fst snd]. split; [done|]. split; [done|].
    unfold calls. rewrite List.filter_app, length_app.
    destruct a; cbn; lia.
Qed.

Lemma capture_not_found_witness :
  let req := Example.request "kubernetes_delete_pod" "pod:zzz" in
  (let r := Example.reporter [] in
   Part001.CapturePod r (Part001.deletePod r) req [] =
     (xfer.ResponseErrorf "Pod not found: " "zzz", [EvWalk "Pods"]))
  ∧
  (let r := Example.reporter [Example.foo; Example.bar] in
   Part000.CapturePod r (Part000.deletePod r) req [] =
     (xfer.ResponseErrorf "Pod not found: " "zzz", [EvWalk "Pods"])).
Proof.
  intros req. split; intros r.
  - destruct (capture_not_found r req [] "zzz") as [H1 _].
    destruct (H1 Part001.APod (Part001.deletePod r)) as (Ha & Hb & _).
    + reflexivity.
    + constructor.
    + cbn [Part001.capture] in Ha, Hb.
      destruct (Part001.CapturePod r (Part001.deletePod r) req []).
      cbn [fst snd] in Ha, Hb. by rewrite Ha, Hb.
  - destruct (capture_not_found r req [] "zzz") as [_ H0].
    destruct (H0 Part000.APod (Part000.deletePod r)) as (Ha & Hb & _).
    + reflexivity.
    + repeat constructor; discriminate.
    + cbn [Part000.capture] in Ha, Hb.
      destruct (Part000.CapturePod r (Part000.deletePod r) req []).
      cbn [fst snd] in Ha, Hb. by rewrite Ha, Hb.
Defined.

(** ** Duplicate unique ids *)

(** C5.  For every capture adapter of either revision: when the node
    identifier decodes to [uid] and [h] is the last handle of the walked
    store whose unique id is [uid] (any number of earlier handles may carry
    the same id), the adapter runs its continuation on the attributes of
    [h], after the walk.  The visitor never stops the walk: it is handed
    every handle of the store. *)
Theorem capture_last_match `{report.Pkg} `{Resources}
    (r : Reporter) (req : xfer.Request) (w : World) (uid : string) :
  (∀ (a : Part001.Adapter) (f : Part001.Continuation a)
     (l1 l2 : list (Part001.Handle a)) (h : Part001.Handle a),
     Part001.parse a (xfer.NodeID req) = Some uid →
     Part001.store a (client r) = l1 ++ h :: l2 →
     Part001.uid_of a h = uid →
     Forall (fun h' => Part001.uid_of a h' ≠ uid) l2 →
     Part001.capture r a f req w =
       Part001.invoke a f req h (w ++ [Part001.walked a])
     ∧ visited (Part001.store a (client r))
         (select (Part001.uid_of a) uid) None
       = length (Part001.store a (client r)))
  ∧
  (∀ (a : Part000.Adapter) (f : Part000.Continuation a)
     (l1 l2 : list (Part000.Handle a)) (h : Part000.Handle a),
     Part000.parse a (xfer.NodeID req) = Some uid →
     Part000.store a (client r) = l1 ++ h :: l2 →
     Part000.uid_of a h = uid →
     Forall (fun h' => Part000.uid_of a h' ≠ uid) l2 →
     Part000.capture r a f req w =
       Part000.invoke a f req h (w ++ [Part000.walked a])
     ∧ visited (Part000.store a (client r))
         (select (Part000.uid_of a) uid) None
       = length (Part000.store a (client r))).
Proof.
  split; intros a f l1 l2 h Hparse Hstore Hh Hl2.
  - split; [|apply visited_select].
    by rewrite Part001_capture_eq, Hparse, Hstore,
      (last_match_app _ _ l1 l2 h Hh Hl2).
  - split; [|apply visited_select].
    by rewrite Part000_capture_eq, Hparse, Hstore,
      (last_match_app _ _ l1 l2 h Hh Hl2).
Qed.

Lemma capture_last_match_witness :
  let r := Example.reporter [Example.foo'; Example.bar; Example.foo] in
  let req := Example.request "kubernetes_delete_pod" "pod:abc" in
  Part001.CapturePod r (Part001.deletePod r) req [] =
    Part001.deletePod r req "ns1" "foo" ["main"] (ResourceMap "Pod")
      [EvWalk "Pods"]
  ∧
  Part000.CapturePod r (Part000.deletePod r) req [] =
    Part000.deletePod r req "ns1" "foo" ["main"] [EvWalk "Pods"].
Proof.
  intros r req.
  destruct (capture_last_match r req [] "abc") as [H1 H0]. split.
  - apply (H1 Part001.APod (Part001.deletePod r)
             [Example.foo'; Example.bar] [] Example.foo);
      [reflexivity|reflexivity|reflexivity|constructor].
  - apply (H0 Part000.APod (Part000.deletePod r)
             [Example.foo'; Example.bar] [] Example.foo);
      [reflexivity|reflexivity|reflexivity|constructor].
Defined.

(** ** Cluster-scoped kinds *)

(** C10.  Whenever the identifier of a request resolves to a cached storage
    class (respectively persistent volume), [CaptureStorageClass]
    (respectively [CapturePersistentVolume]) of the current revision runs its
    continuation with the empty string in the namespace position, the name
    of a cached handle carrying the decoded unique id, and the group kind of
    its resource; the namespace recorded on the handle is not used. *)
Theorem cluster_scoped_namespace_is_empty `{report.Pkg} `{Resources}
    (r : Reporter)
    (f : xfer.Request -> string -> string -> schema.GroupKind ->
         M xfer.Response)
    (req : xfer.Request) (w : World) (uid : string) :
  (report.ParseStorageClassNodeID (xfer.NodeID req) = Some uid →
   (∃ h : StorageClass, h ∈ storageClassStore (client r) ∧ UID h = uid) →
   ∃ sc : StorageClass,
     sc ∈ storageClassStore (client r) ∧ UID sc = uid ∧
     Part001.CaptureStorageClass r f req w =
       f req "" (Name sc) (ResourceMap "StorageClass")
         (w ++ [EvWalk "StorageClasses"]))
  ∧
  (report.ParsePersistentVolumeNodeID (xfer.NodeID req) = Some uid →
   (∃ h : PersistentVolume,
      h ∈ persistentVolumeStore (client r) ∧ UID h = uid) →
   ∃ pv : PersistentVolume,
     pv ∈ persistentVolumeStore (client r) ∧ UID pv = uid ∧
     Part001.CapturePersistentVolume r f req w =
       f req "" (Name pv) (ResourceMap "PersistentVolume")
         (w ++ [EvWalk "PersistentVolumes"])).
Proof.
  split; intros Hparse (h & Hin & Hh).
  - destruct (last_match_is_Some (fun x : StorageClass => UID x) uid _ h Hin Hh)
      as [sc Hsc].
    destruct (last_match_Some _ _ _ _ Hsc) as [Hsc_in Hsc_uid].
    exists sc. split; [done|]. split; [done|].
    pose proof (Part001_capture_eq r Part001.AStorageClass f req w) as E.
    cbn [Part001.capture Part001.parse Part001.uid_of Part001.store
         Part001.walked Part001.invoke Part001.Handle] in E.
    by rewrite E, Hparse, Hsc.
  - destruct (last_match_is_Some (fun x : PersistentVolume => UID x) uid _ h
                Hin Hh) as [pv Hpv].
    destruct (last_match_Some _ _ _ _ Hpv) as [Hpv_in Hpv_uid].
    exists pv. split; [done|]. split; [done|].
    pose proof (Part001_capture_eq r Part001.APersistentVolume f req w) as E.
    cbn [Part001.capture Part001.parse Part001.uid_of Part001.store
         Part001.walked Part001.invoke Part001.Handle] in E.
    by rewrite E, Hparse, Hpv.
Qed.

Lemma cluster_scoped_namespace_is_empty_witness :
  let r := Example.reporter [] in
  (∃ sc : StorageClass,
     sc ∈ storageClassStore (client r) ∧ UID sc = "s1" ∧
     Part001.CaptureStorageClass r (Part001.describe r)
       (Example.request "kubernetes_describe_sc" "sc:s1") [] =
     Part001.describe r (Example.request "kubernetes_describe_sc" "sc:s1")
       "" (Name sc) (ResourceMap "StorageClass") [EvWalk "StorageClasses"])
  ∧
  (∃ pv : PersistentVolume,
     pv ∈ persistentVolumeStore (client r) ∧ UID pv = "v1" ∧
     Part001.CapturePersistentVolume r (Part001.describe r)
       (Example.request "kubernetes_describe_pv" "pv:v1") [] =
     Part001.describe r (Example.request "kubernetes_describe_pv" "pv:v1")
       "" (Name pv) (ResourceMap "PersistentVolume")
       [EvWalk "PersistentVolumes"]).
Proof.
  intros r. split.
  - apply (proj1 (cluster_scoped_namespace_is_empty r (Part001.describe r)
                    (Example.request "kubernetes_describe_sc" "sc:s1") []
                    "s1")); [reflexivity|].
    eexists. split; [apply list_elem_of_here|reflexivity].
  - apply (proj2 (cluster_scoped_namespace_is_empty r (Part001.describe r)
                    (Example.request "kubernetes_describe_pv" "pv:v1") []
                    "v1")); [reflexivity|].
    eexists. split; [apply list_elem_of_here|reflexivity].
Defined.

(** ** The registry after [registerControls] *)

Ltac in_literal :=
  repeat first [apply list_elem_of_here | apply list_elem_of_further].

Lemma Batch_add_lookup (toAdd registry : HandlerRegistry) (id : string)
    (h : xfer.ControlHandlerFunc) :
  toAdd !! id = Some h → controls.Batch [] toAdd registry !! id = Some h.
Proof. intros Hid. unfold controls.Batch. by apply lookup_union_Some_l. Qed.

Lemma Part001_registered_lookup `{report.Pkg} `{Resources} (r : Reporter)
    (registry : HandlerRegistry) (id : string) (h : xfer.ControlHandlerFunc) :
  NoDup (Part001.registered r).*1 →
  (id, h) ∈ Part001.registered r →
  Part001.registerControls r registry !! id = Some h.
Proof.
  intros Hnd Hin. unfold Part001.registerControls.
  apply Batch_add_lookup. by apply elem_of_list_to_map_1.
Qed.

Lemma Part000_registered_lookup `{report.Pkg} (r : Reporter)
    (registry : HandlerRegistry) (id : string) (h : xfer.ControlHandlerFunc) :
  NoDup (Part000.registered r).*1 →
  (id, h) ∈ Part000.registered r →
  Part000.registerControls r registry !! id = Some h.
Proof.
  intros Hnd Hin. unfold Part000.registerControls.
  apply Batch_add_lookup. by apply elem_of_list_to_map_1.
Qed.

(** The identifiers of the example environment are pairwise distinct. *)
Lemma Example_Part001_NoDup (r : Reporter) : NoDup (Part001.registered r).*1.
Proof. apply (bool_decide_unpack _). vm_compute. reflexivity. Qed.

Lemma Example_Part000_NoDup (r : Reporter) : NoDup (Part000.registered r).*1.
Proof. apply (bool_decide_unpack _). vm_compute. reflexivity. Qed.

(** ** Scaling *)

(** C9.  [ScaleUp] and [ScaleDown] call the client's scale operation with
    the kind [report.Deployment] and the namespace and name they were given,
    whatever group kind the adapter resolved (the earlier revision has no
    such parameter at all), and answer with the client's outcome.  After
    [registerControls], with pairwise distinct control identifiers, both
    controls are bound to the deployment adapter. *)
Theorem scale_always_deployment `{report.Pkg} `{Resources}
    (r : Reporter) (req : xfer.Request) (namespace id : string) (w : World) :
  (∀ groupKind : schema.GroupKind,
     Part001.ScaleUp r req namespace id groupKind w =
       (xfer.ResponseError (doScaleUp (client r) report.Deployment namespace id),
        w ++ [EvScaleUp report.Deployment namespace id])
     ∧ Part001.ScaleDown r req namespace id groupKind w =
       (xfer.ResponseError
          (doScaleDown (client r) report.Deployment namespace id),
        w ++ [EvScaleDown report.Deployment namespace id]))
  ∧ Part000.ScaleUp r req namespace id w =
      (xfer.ResponseError (doScaleUp (client r) report.Deployment namespace id),
       w ++ [EvScaleUp report.Deployment namespace id])
  ∧ Part000.ScaleDown r req namespace id w =
      (xfer.ResponseError
         (doScaleDown (client r) report.Deployment namespace id),
       w ++ [EvScaleDown report.Deployment namespace id])
  ∧ (∀ registry : HandlerRegistry,
       NoDup (Part001.registered r).*1 →
       Part001.registerControls r registry !! Part001.ControlID.ScaleUp =
         Some (Part001.CaptureDeployment r (Part001.ScaleUp r))
       ∧ Part001.registerControls r registry !! Part001.ControlID.ScaleDown =
         Some (Part001.CaptureDeployment r (Part001.ScaleDown r)))
  ∧ (∀ registry : HandlerRegistry,
       NoDup (Part000.registered r).*1 →
       Part000.registerControls r registry !! Part000.ControlID.ScaleUp =
         Some (Part000.CaptureDeployment r (Part000.ScaleUp r))
       ∧ Part000.registerControls r registry !! Part000.ControlID.ScaleDown =
         Some (Part000.CaptureDeployment r (Part000.ScaleDown r))).
Proof.
  split; [intros groupKind; split; reflexivity|].
  split; [reflexivity|]. split; [reflexivity|].
  split; intros registry Hnd.
  - split; apply Part001_registered_lookup; try done;
      unfold Part001.registered; in_literal.
  - split; apply Part000_registered_lookup; try done;
      unfold Part000.registered; in_literal.
Qed.

Lemma scale_always_deployment_witness :
  let r := Example.reporter [] in
  Part001.registerControls r ∅ !! "kubernetes_scale_up" =
    Some (Part001.CaptureDeployment r (Part001.ScaleUp r))
  ∧ Part000.registerControls r ∅ !! "kubernetes_scale_down" =
    Some (Part000.CaptureDeployment r (Part000.ScaleDown r)).
Proof.
  intros r.
  destruct (scale_always_deployment r (Example.request "" "") "" "" [])
    as (_ & _ & _ & H1 & H0).
  split.
  - apply (H1 ∅). apply Example_Part001_NoDup.
  - apply (H0 ∅). apply Example_Part000_NoDup.
Defined.

(** ** Deleting a pod *)

Lemma Part001_deletePod_eq `{report.Pkg} `{Resources} (r : Reporter)
    (req : xfer.Request) (ns name : string) (containers : list string)
    (groupKind : schema.GroupKind) (w : World) :
  Part001.deletePod r req ns name containers groupKind w =
    (match doDeletePod (client r) ns name with
     | Some err => xfer.ResponseError (Some err)
     | None => {| xfer.Value := ""; xfer.Error := ""; xfer.Pipe := "";
                  xfer.RemovedNode := xfer.NodeID req |}
     end, w ++ [EvDeletePod ns name]).
Proof.
  unfold Part001.deletePod, client.DeletePod, bind, emit, ret.
  by destruct (doDeletePod _ _ _).
Qed.

Lemma Part000_deletePod_eq `{report.Pkg} (r : Reporter)
    (req : xfer.Request) (ns name : string) (containers : list string)
    (w : World) :
  Part000.deletePod r req ns name containers w =
    (match doDeletePod (client r) ns name with
     | Some err => xfer.ResponseError (Some err)
     | None => {| xfer.Value := ""; xfer.Error := ""; xfer.Pipe := "";
                  xfer.RemovedNode := xfer.NodeID req |}
     end, w ++ [EvDeletePod ns name]).
Proof.
  unfold Part000.deletePod, client.DeletePod, bind, emit, ret.
  by destruct (doDeletePod _ _ _).
Qed.

Lemma calls_app (p : Event -> bool) (w1 w2 : World) :
  calls p (w1 ++ w2) = calls p w1 + calls p w2.
Proof. unfold calls. by rewrite List.filter_app, length_app. Qed.

(** C7.  Let the pod store hold a pod [p] and let every cached pod with the
    unique id of [p] have the namespace and name of [p] (in the scenario:
    uid [abc], namespace [ns1], name [foo]).  Dispatching a request whose
    control is the delete-pod identifier and whose node identifier decodes
    to that uid, through the registry filled by [registerControls], walks
    the pods, calls the client's [DeletePod] with that namespace and name,
    and does nothing else: exactly one more [DeletePod] call is on record.
    When the client reports success the response carries the request's own
    node identifier as removed node and nothing else.  Both revisions. *)
Theorem delete_pod_scenario `{report.Pkg} `{Resources}
    (r : Reporter) (registry : HandlerRegistry) (req : xfer.Request)
    (w : World) (p : Pod) :
  p ∈ podStore (client r) →
  (∀ q : Pod, q ∈ podStore (client r) → UID q = UID p →
     Namespace q = Namespace p ∧ Name q = Name p) →
  report.ParsePodNodeID (xfer.NodeID req) = Some (UID p) →
  xfer.Control req = report.KubernetesDeletePod →
  (NoDup (Part001.registered r).*1 →
   let out :=
     controls.HandleControlRequest (Part001.registerControls r registry)
       req w in
   out.2 = w ++ [EvWalk "Pods"; EvDeletePod (Namespace p) (Name p)]
   ∧ calls is_DeletePod out.2 = S (calls is_DeletePod w)
   ∧ (doDeletePod (client r) (Namespace p) (Name p) = None →
      out.1 = {| xfer.Value := ""; xfer.Error := ""; xfer.Pipe := "";
                 xfer.RemovedNode := xfer.NodeID req |}))
  ∧
  (NoDup (Part000.registered r).*1 →
   let out :=
     controls.HandleControlRequest (Part000.registerControls r registry)
       req w in
   out.2 = w ++ [EvWalk "Pods"; EvDeletePod (Namespace p) (Name p)]
   ∧ calls is_DeletePod out.2 = S (calls is_DeletePod w)
   ∧ (doDeletePod (client r) (Namespace p) (Name p) = None →
      out.1 = {| xfer.Value := ""; xfer.Error := ""; xfer.Pipe := "";
                 xfer.RemovedNode := xfer.NodeID req |})).
Proof.
  intros Hin Hsame Hparse Hctl.
  destruct (last_match_is_Some (fun x : Pod => UID x) (UID p) _ p Hin eq_refl)
    as [q Hq].
  destruct (last_match_Some _ _ _ _ Hq) as [Hq_in Hq_uid].
  destruct (Hsame q Hq_in Hq_uid) as [Hns Hname].
  split; intros Hnd out; subst out; unfold controls.HandleControlRequest;
    rewrite Hctl.
  - rewrite (Part001_registered_lookup r registry report.KubernetesDeletePod
               (Part001.CapturePod r (Part001.deletePod r)) Hnd)
      by (unfold Part001.registered; in_literal).
    pose proof (Part001_capture_eq r Part001.APod (Part001.deletePod r) req w)
      as E.
    cbn [Part001.capture Part001.parse Part001.uid_of Part001.store
         Part001.walked Part001.invoke Part001.Handle] in E.
    rewrite E, Hparse, Hq, Part001_deletePod_eq, Hns, Hname. cbn [fst snd].
    rewrite <- app_assoc. split; [done|]. split.
    + rewrite calls_app. cbn. lia.
    + by intros ->.
  - rewrite (Part000_registered_lookup r registry report.KubernetesDeletePod
               (Part000.CapturePod r (Part000.deletePod r)) Hnd)
      by (unfold Part000.registered; in_literal).
    pose proof (Part000_capture_eq r Part000.APod (Part000.deletePod r) req w)
      as E.
    cbn [Part000.capture Part000.parse Part000.uid_of Part000.store
         Part000.walked Part000.invoke Part000.Handle] in E.
    rewrite E, Hparse, Hq, Part000_deletePod_eq, Hns, Hname. cbn [fst snd].
    rewrite <- app_assoc. split; [done|]. split.
    + rewrite calls_app. cbn. lia.
    + by intros ->.
Qed.

Lemma delete_pod_scenario_witness :
  let r := Example.reporter [Example.bar; Example.foo] in
  let req := Example.request "kubernetes_delete_pod" "pod:abc" in
  controls.HandleControlRequest (Part001.registerControls r ∅) req [] =
    ({| xfer.Value := ""; xfer.Error := ""; xfer.Pipe := "";
        xfer.RemovedNode := "pod:abc" |},
     [EvWalk "Pods"; EvDeletePod "ns1" "foo"])
  ∧
  controls.HandleControlRequest (Part000.registerControls r ∅) req [] =
    ({| xfer.Value := ""; xfer.Error := ""; xfer.Pipe := "";
        xfer.RemovedNode := "pod:abc" |},
     [EvWalk "Pods"; EvDeletePod "ns1" "foo"]).
Proof.
  intros r req.
  assert (Hin : Example.foo ∈ podStore (client r)) by in_literal.
  assert (Hsame : ∀ q : Pod, q ∈ podStore (client r) →
                    UID q = UID Example.foo →
                    Namespace q = Namespace Example.foo ∧
                    Name q = Name Example.foo).
  { intros q Hq Hu. apply list_elem_of_In in Hq.
    destruct Hq as [<-|[<-|[]]]; [discriminate Hu|split; reflexivity]. }
  assert (Hparse : report.ParsePodNodeID (xfer.NodeID req) =
                     Some (UID Example.foo)) by reflexivity.
  assert (Hctl : xfer.Control req = report.KubernetesDeletePod)
    by reflexivity.
  destruct (delete_pod_scenario r ∅ req [] Example.foo Hin Hsame Hparse Hctl)
    as [H1 H0].
  split.
  - destruct (H1 (Example_Part001_NoDup r)) as (Ha & _ & Hb).
    specialize (Hb eq_refl).
    destruct (controls.HandleControlRequest _ req []) as [resp w'].
    cbn [fst snd] in Ha, Hb. by rewrite Ha, Hb.
  - destruct (H0 (Example_Part000_NoDup r)) as (Ha & _ & Hb).
    specialize (Hb eq_refl).
    destruct (controls.HandleControlRequest _ req []) as [resp w'].
    cbn [fst snd] in Ha, Hb. by rewrite Ha, Hb.
Defined.

(** ** Snapshot creation *)

(** C6, as the code has it.  On client success the earlier revision's
    [createSnapshot] answers with the request's control identifier in the
    value field and nothing else, whereas [createVolumeSnapshot] and
    [cloneVolumeSnapshot] of the current revision answer with the empty
    response: no field is populated.  Each makes exactly its one client
    call. *)
Theorem snapshot_creation_responses `{report.Pkg} `{Resources}
    (r : Reporter) (req : xfer.Request) (w : World) :
  (∀ (persistentVolumeID : string) (snapshot : string),
     doCreateSnapshot (client r) persistentVolumeID = Ok snapshot →
     Part000.createSnapshot r req persistentVolumeID w =
       ({| xfer.Value := xfer.Control req; xfer.Error := "";
           xfer.Pipe := ""; xfer.RemovedNode := "" |},
        w ++ [EvCreateSnapshot persistentVolumeID]))
  ∧
  (∀ (namespaceID persistentVolumeClaimID capacity : string)
     (groupKind : schema.GroupKind),
     doCreateVolumeSnapshot (client r) namespaceID persistentVolumeClaimID
       capacity = None →
     Part001.createVolumeSnapshot r req namespaceID persistentVolumeClaimID
       capacity groupKind w =
       (xfer.empty,
        w ++ [EvCreateVolumeSnapshot namespaceID persistentVolumeClaimID
                capacity]))
  ∧
  (∀ (namespaceID volumeSnapshotID persistentVolumeClaimID capacity : string),
     doCloneVolumeSnapshot (client r) namespaceID volumeSnapshotID
       persistentVolumeClaimID capacity = None →
     Part001.cloneVolumeSnapshot r req namespaceID volumeSnapshotID
       persistentVolumeClaimID capacity w =
       (xfer.empty,
        w ++ [EvCloneVolumeSnapshot namespaceID volumeSnapshotID
                persistentVolumeClaimID capacity])).
Proof.
  split; [|split].
  - intros pv snapshot Hok.
    unfold Part000.createSnapshot, client.CreateSnapshot, bind, emit, ret.
    by rewrite Hok.
  - intros ns pvc capacity groupKind Hok.
    unfold Part001.createVolumeSnapshot, client.CreateVolumeSnapshot, bind,
      emit, ret.
    by rewrite Hok.
  - intros ns vs pvc capacity Hok.
    unfold Part001.cloneVolumeSnapshot, client.CloneVolumeSnapshot, bind,
      emit, ret.
    by rewrite Hok.
Qed.

Lemma snapshot_creation_responses_witness :
  let r := Example.reporter [] in
  Part000.createSnapshot r
    (Example.request "kubernetes_create_snapshot" "pv:v1") "disk" [] =
    ({| xfer.Value := "kubernetes_create_snapshot"; xfer.Error := "";
        xfer.Pipe := ""; xfer.RemovedNode := "" |},
     [EvCreateSnapshot "disk"])
  ∧
  Part001.createVolumeSnapshot r
    (Example.request "kubernetes_create_volume_snapshot" "pvc:c1")
    "ns1" "claim" "5Gi" (ResourceMap "PersistentVolumeClaim") [] =
    (xfer.empty, [EvCreateVolumeSnapshot "ns1" "claim" "5Gi"])
  ∧
  Part001.cloneVolumeSnapshot r
    (Example.request "kubernetes_clone_volume_snapshot" "snapshot:p1")
    "ns1" "snap" "claim" "5Gi" [] =
    (xfer.empty, [EvCloneVolumeSnapshot "ns1" "snap" "claim" "5Gi"]).
Proof.
  intros r. split; [|split].
  - apply (proj1 (snapshot_creation_responses r
                    (Example.request "kubernetes_create_snapshot" "pv:v1") [])
             "disk" "snapshot").
    reflexivity.
  - apply (proj1 (proj2 (snapshot_creation_responses r
             (Example.request "kubernetes_create_volume_snapshot" "pvc:c1")
             []))).
    reflexivity.
  - apply (proj2 (proj2 (snapshot_creation_responses r
             (Example.request "kubernetes_clone_volume_snapshot" "snapshot:p1")
             []))).
    reflexivity.
Defined.

(** C6 as stated fails on the current revision: dispatched with a
    successful client, the create-volume-snapshot control and the
    clone-volume-snapshot control both answer with an empty value field,
    which is not the control identifier of the request. *)
Lemma snapshot_creation_value_counterexample :
  let r := Example.reporter [] in
  let create := Example.request "kubernetes_create_volume_snapshot" "pvc:c1" in
  let clone := Example.request "kubernetes_clone_volume_snapshot" "snapshot:p1" in
  let registry := Part001.registerControls r ∅ in
  (doCreateVolumeSnapshot (client r) "ns1" "claim" "5Gi" = None
   ∧ controls.HandleControlRequest registry create [] =
       (xfer.empty, [EvWalk "PersistentVolumeClaims";
                     EvCreateVolumeSnapshot "ns1" "claim" "5Gi"])
   ∧ xfer.Value (controls.HandleControlRequest registry create []).1
       ≠ xfer.Control create)
  ∧
  (doCloneVolumeSnapshot (client r) "ns1" "snap" "claim" "5Gi" = None
   ∧ controls.HandleControlRequest registry clone [] =
       (xfer.empty, [EvWalk "VolumeSnapshots";
                     EvCloneVolumeSnapshot "ns1" "snap" "claim" "5Gi"])
   ∧ xfer.Value (controls.HandleControlRequest registry clone []).1
       ≠ xfer.Control clone).
Proof.
  intros r create clone registry.
  assert (Hcreate : controls.HandleControlRequest registry create [] =
            (xfer.empty, [EvWalk "PersistentVolumeClaims";
                          EvCreateVolumeSnapshot "ns1" "claim" "5Gi"])).
  { unfold controls.HandleControlRequest, registry.
    rewrite (Part001_registered_lookup r ∅ _
               (Part001.CapturePersistentVolumeClaim r
                  (Part001.createVolumeSnapshot r))
               (Example_Part001_NoDup r))
      by (unfold Part001.registered; in_literal).
    reflexivity. }
  assert (Hclone : controls.HandleControlRequest registry clone [] =
            (xfer.empty, [EvWalk "VolumeSnapshots";
                          EvCloneVolumeSnapshot "ns1" "snap" "claim" "5Gi"])).
  { unfold controls.HandleControlRequest, registry.
    rewrite (Part001_registered_lookup r ∅ _
               (Part001.CaptureVolumeSnapshot r
                  (Part001.cloneVolumeSnapshot r))
               (Example_Part001_NoDup r))
      by (unfold Part001.registered; in_literal).
    reflexivity. }
  split; (split; [reflexivity|]).
  - split; [exact Hcreate|]. rewrite Hcreate. discriminate.
  - split; [exact Hclone|]. rewrite Hclone. discriminate.
Qed.

(** ** Streams whose pipe could not be registered *)

Lemma leaked_app (rc : ReadCloser) (w1 w2 : World) :
  leaked rc (w1 ++ w2) = leaked rc w1 && leaked rc w2.
Proof.
  unfold leaked. rewrite !existsb_app.
  destruct (existsb (is_close_of rc) w1), (existsb (is_close_of rc) w2),
    (existsb (is_release_of rc) w1), (existsb (is_release_of rc) w2);
    reflexivity.
Qed.

Lemma close_count_app (rc : ReadCloser) (w1 w2 : World) :
  close_count rc (w1 ++ w2) = close_count rc w1 + close_count rc w2.
Proof. unfold close_count. by rewrite List.filter_app, length_app. Qed.

(** C1, what the code does.  When the client hands out a stream [rc] and
    the pipe transport rejects the registration with [err], [GetLogs] (both
    revisions) and [describe] answer with [err] after two steps only: the
    client call and the registration attempt.  [rc.Close()] has not run and
    no close callback mentions [rc]: a stream that was not yet closed nor
    scheduled for release before the call is leaked after it. *)
Theorem registration_failure_leaks_stream `{report.Pkg} `{Resources}
    (r : Reporter) (req : xfer.Request) (namespaceID resourceID : string)
    (containerNames : list string) (groupKind : schema.GroupKind)
    (rc : ReadCloser) (err : error) (w : World) :
  controls.PipeConnection (pipes r) (xfer.AppID req)
    {| Reader := rc; Writer_ := Discard |} = Err err →
  leaked rc w = true →
  (doGetLogs (client r) namespaceID resourceID containerNames = Ok rc →
   let out :=
     Part001.GetLogs r req namespaceID resourceID containerNames groupKind w in
   out = (xfer.ResponseError (Some err),
          w ++ [EvGetLogs namespaceID resourceID containerNames;
                EvNewPipeFromEnds {| Reader := rc; Writer_ := Discard |}
                  (xfer.AppID req)])
   ∧ close_count rc out.2 = close_count rc w
   ∧ leaked rc out.2 = true)
  ∧
  (doDescribe (client r) namespaceID resourceID groupKind = Ok rc →
   let out := Part001.describe r req namespaceID resourceID groupKind w in
   out = (xfer.ResponseError (Some err),
          w ++ [EvDescribe namespaceID resourceID groupKind;
                EvNewPipeFromEnds {| Reader := rc; Writer_ := Discard |}
                  (xfer.AppID req)])
   ∧ close_count rc out.2 = close_count rc w
   ∧ leaked rc out.2 = true)
  ∧
  (doGetLogs (client r) namespaceID resourceID containerNames = Ok rc →
   let out := Part000.GetLogs r req namespaceID resourceID containerNames w in
   out = (xfer.ResponseError (Some err),
          w ++ [EvGetLogs namespaceID resourceID containerNames;
                EvNewPipeFromEnds {| Reader := rc; Writer_ := Discard |}
                  (xfer.AppID req)])
   ∧ close_count rc out.2 = close_count rc w
   ∧ leaked rc out.2 = true).
Proof.
  intros Hpipe Hleak.
  split; [|split]; intros Hok out; subst out.
  - unfold Part001.GetLogs, client.GetLogs, controls.NewPipeFromEnds, bind,
      emit, ret.
    rewrite Hok, Hpipe, <- app_assoc. cbn [app fst snd].
    split; [done|].
    rewrite close_count_app, leaked_app, Hleak. by split; [cbn; lia|].
  - unfold Part001.describe, client.Describe, controls.NewPipeFromEnds, bind,
      emit, ret.
    rewrite Hok, Hpipe, <- app_assoc. cbn [app fst snd].
    split; [done|].
    rewrite close_count_app, leaked_app, Hleak. by split; [cbn; lia|].
  - unfold Part000.GetLogs, client.GetLogs, controls.NewPipeFromEnds, bind,
      emit, ret.
    rewrite Hok, Hpipe, <- app_assoc. cbn [app fst snd].
    split; [done|].
    rewrite close_count_app, leaked_app, Hleak. by split; [cbn; lia|].
Qed.

Lemma registration_failure_leaks_stream_witness :
  let r := Example.reporter [Example.foo] in
  let req := Example.request "kubernetes_get_logs" "pod:abc" in
  let rw := {| Reader := Example.stream; Writer_ := Discard |} in
  Part001.GetLogs r req "ns1" "foo" ["main"] (ResourceMap "Pod") [] =
    (xfer.ResponseError (Some "unknown session"),
     [EvGetLogs "ns1" "foo" ["main"]; EvNewPipeFromEnds rw "app"])
  ∧ Part001.describe r req "ns1" "foo" (ResourceMap "Pod") [] =
    (xfer.ResponseError (Some "unknown session"),
     [EvDescribe "ns1" "foo" (ResourceMap "Pod"); EvNewPipeFromEnds rw "app"])
  ∧ Part000.GetLogs r req "ns1" "foo" ["main"] [] =
    (xfer.ResponseError (Some "unknown session"),
     [EvGetLogs "ns1" "foo" ["main"]; EvNewPipeFromEnds rw "app"])
  ∧ leaked Example.stream
      (Part001.GetLogs r req "ns1" "foo" ["main"] (ResourceMap "Pod") []).2
    = true.
Proof.
  intros r req rw.
  assert (Hpipe : controls.PipeConnection (pipes r) (xfer.AppID req) rw =
                    Err "unknown session") by reflexivity.
  assert (Hleak : leaked Example.stream [] = true) by reflexivity.
  destruct (registration_failure_leaks_stream r req "ns1" "foo" ["main"]
              (ResourceMap "Pod") Example.stream "unknown session" []
              Hpipe Hleak) as (H1 & H2 & H3).
  destruct (H1 eq_refl) as (Ha & _ & Hl).
  destruct (H2 eq_refl) as (Hb & _).
  destruct (H3 eq_refl) as (Hc & _).
  split; [exact Ha|]. split; [exact Hb|]. split; [exact Hc|exact Hl].
Defined.

(** For contrast: when the registration succeeds, the release of the stream
    is scheduled with the pipe, so the stream is not leaked. *)
Lemma registration_success_schedules_release `{report.Pkg} `{Resources}
    (r : Reporter) (req : xfer.Request) (namespaceID podID : string)
    (containerNames : list string) (groupKind : schema.GroupKind)
    (rc : ReadCloser) (id : string) (w : World) :
  doGetLogs (client r) namespaceID podID containerNames = Ok rc →
  controls.PipeConnection (pipes r) (xfer.AppID req)
    {| Reader := rc; Writer_ := Discard |} = Ok id →
  let out := Part001.GetLogs r req namespaceID podID containerNames groupKind w in
  xfer.Pipe out.1 = id
  ∧ out.2 = w ++ [EvGetLogs namespaceID podID containerNames;
                  EvNewPipeFromEnds {| Reader := rc; Writer_ := Discard |}
                    (xfer.AppID req);
                  EvOnClose id (CloseStream rc)]
  ∧ leaked rc out.2 = false.
Proof.
  intros Hok Hpipe out; subst out.
  unfold Part001.GetLogs, client.GetLogs, controls.NewPipeFromEnds,
    controls.OnClose, bind, emit, ret.
  rewrite Hok, Hpipe, <- !app_assoc. cbn [app fst snd xfer.Pipe].
  split; [done|]. split; [done|].
  rewrite leaked_app. apply andb_false_intro2.
  unfold leaked. cbn. by rewrite Nat.eqb_refl.
Qed.

(** Running the scheduled callback is what closes the stream, once. *)
Lemma scheduled_release_closes_stream (rc : ReadCloser) (w : World) :
  close_count rc (controls.run (CloseStream rc) w).2 = S (close_count rc w).
Proof.
  unfold controls.run, emit. cbn [snd].
  rewrite close_count_app. unfold close_count at 2. cbn.
  rewrite Nat.eqb_refl. cbn. lia.
Qed.

(** ** Registering and deregistering *)

Lemma Batch_add_dom (toAdd registry : HandlerRegistry) :
  dom (controls.Batch [] toAdd registry) = dom toAdd ∪ dom registry.
Proof. unfold controls.Batch. cbn [foldr]. by rewrite dom_union_L. Qed.

Lemma Batch_remove_dom (toRemove : list string) (registry : HandlerRegistry) :
  dom (controls.Batch toRemove ∅ registry) =
    dom registry ∖ list_to_set toRemove.
Proof.
  unfold controls.Batch. rewrite (left_id_L ∅ (∪)).
  induction toRemove as [|id ids IH]; cbn [foldr list_to_set].
  - by rewrite difference_empty_L.
  - by rewrite dom_delete_L, IH, difference_difference_l_L,
      (comm_L (∪) (list_to_set ids)).
Qed.

Lemma Batch_remove_lookup (toRemove : list string) (registry : HandlerRegistry)
    (id : string) :
  id ∉ toRemove →
  controls.Batch toRemove ∅ registry !! id = registry !! id.
Proof.
  intros Hid. unfold controls.Batch. rewrite (left_id_L ∅ (∪)).
  induction toRemove as [|id' ids IH]; cbn [foldr]; [done|].
  apply not_elem_of_cons in Hid as [Hne Hid].
  rewrite lookup_delete_ne by done. by apply IH.
Qed.

(** The earlier revision removes what it added. *)
Lemma Part000_deregister_register `{report.Pkg} (r : Reporter)
    (registry : HandlerRegistry) :
  dom (Part000.deregisterControls (Part000.registerControls r registry)) =
    dom registry ∖ list_to_set Part000.deregistered
  ∧ (Part000.registered r).*1 = Part000.deregistered.
Proof.
  split; [|reflexivity].
  unfold Part000.deregisterControls, Part000.registerControls.
  rewrite Batch_remove_dom, Batch_add_dom, dom_list_to_map_L.
  assert (E : (Part000.registered r).*1 = Part000.deregistered) by reflexivity.
  by rewrite E, difference_union_distr_l_L, difference_diag_L,
    (left_id_L ∅ (∪)).
Qed.

Lemma kept_after_removal (front kept back : list string) (id : string) :
  NoDup (front ++ kept ++ back) → id ∈ kept → id ∉ front ++ back.
Proof.
  intros Hnd Hid.
  apply NoDup_app in Hnd as (_ & Hfront & Hrest).
  apply NoDup_app in Hrest as (_ & Hkept & _).
  intros [Hin|Hin]%elem_of_app.
  - apply (Hfront id Hin). apply elem_of_app. by left.
  - by apply (Hkept id Hid).
Qed.

Lemma dom_after_removal (front kept back : list string) :
  NoDup (front ++ kept ++ back) →
  (list_to_set (front ++ kept ++ back) : gset string)
    ∖ list_to_set (front ++ back) = list_to_set kept.
Proof.
  intros Hnd. apply set_eq. intros id.
  rewrite elem_of_difference, !elem_of_list_to_set.
  split.
  - intros [Hin Hout]. rewrite !elem_of_app in Hin. rewrite elem_of_app in Hout.
    destruct Hin as [Hin|[Hin|Hin]]; [|done|]; destruct Hout; auto.
  - intros Hid. split.
    + rewrite !elem_of_app. auto.
    + by apply (kept_after_removal front kept back).
Qed.

(** C2, what the code does.  In the current revision, with pairwise
    distinct control identifiers, [registerControls] followed by
    [deregisterControls] on an empty registry leaves exactly the nine
    describe controls bound: [deregisterControls] lists seven of the sixteen
    identifiers that [registerControls] binds. *)
Theorem deregister_leaves_describe_controls `{report.Pkg} `{Resources}
    (r : Reporter) :
  NoDup (Part001.registered r).*1 →
  dom (Part001.deregisterControls (Part001.registerControls r ∅)) =
    list_to_set
      [ Part001.ControlID.DescribePod; Part001.ControlID.DescribeService;
        Part001.ControlID.DescribeCronJob; Part001.ControlID.DescribeDeployment;
        Part001.ControlID.DescribeDaemonSet; Part001.ControlID.DescribePVC;
        Part001.ControlID.DescribePV; Part001.ControlID.DescribeSC;
        Part001.ControlID.DescribeStatefulSet ]
  ∧ Part001.deregisterControls (Part001.registerControls r ∅)
      !! Part001.ControlID.DescribePod =
    Some (Part001.CapturePod r (Part001.describePod r))
  ∧ length (Part001.registered r) = 16
  ∧ length Part001.deregistered = 7.
Proof.
  intros Hnd.
  set (front := [Part001.ControlID.CloneVolumeSnapshot;
                 Part001.ControlID.CreateVolumeSnapshot;
                 Part001.ControlID.GetLogs]).
  set (kept := [Part001.ControlID.DescribePod;
                Part001.ControlID.DescribeService;
                Part001.ControlID.DescribeCronJob;
                Part001.ControlID.DescribeDeployment;
                Part001.ControlID.DescribeDaemonSet;
                Part001.ControlID.DescribePVC; Part001.ControlID.DescribePV;
                Part001.ControlID.DescribeSC;
                Part001.ControlID.DescribeStatefulSet]).
  set (back := [Part001.ControlID.DeletePod;
                Part001.ControlID.DeleteVolumeSnapshot;
                Part001.ControlID.ScaleUp; Part001.ControlID.ScaleDown]).
  assert (Hreg : (Part001.registered r).*1 = front ++ kept ++ back)
    by reflexivity.
  assert (Hdereg : Part001.deregistered = front ++ back) by reflexivity.
  rewrite Hreg in Hnd.
  split; [|split; [|split; reflexivity]].
  - unfold Part001.deregisterControls, Part001.registerControls.
    rewrite Batch_remove_dom, Batch_add_dom, dom_list_to_map_L, dom_empty_L,
      (right_id_L ∅ (∪)), Hreg, Hdereg.
    by apply dom_after_removal.
  - unfold Part001.deregisterControls.
    rewrite Batch_remove_lookup.
    + apply Part001_registered_lookup; [by rewrite Hreg|].
      unfold Part001.registered; in_literal.
    + rewrite Hdereg. apply (kept_after_removal front kept back); [done|].
      subst kept. in_literal.
Qed.

Lemma deregister_leaves_describe_controls_witness :
  dom (Part001.deregisterControls
         (Part001.registerControls (Example.reporter []) ∅)) =
    list_to_set
      [ "kubernetes_describe_pod"; "kubernetes_describe_service";
        "kubernetes_describe_cronjob"; "kubernetes_describe_deployment";
        "kubernetes_describe_daemonset"; "kubernetes_describe_pvc";
        "kubernetes_describe_pv"; "kubernetes_describe_sc";
        "kubernetes_describe_statefulset" ].
Proof.
  apply (proj1 (deregister_leaves_describe_controls (Example.reporter [])
                  (Example_Part001_NoDup (Example.reporter [])))).
Defined.

(** ** Identifiers published by [GetNode]

    The codec itself lives in the [report] package.  What the dispatcher
    needs from it is the round trip at the unique id of a published
    snapshot: then the identifier that [GetNode] publishes for a cached
    snapshot resolves, in [CaptureVolumeSnapshot], to a cached snapshot with
    that unique id. *)
Lemma published_snapshot_resolves `{report.Pkg} `{Resources} (r : Reporter)
    (f : xfer.Request -> string -> string -> string -> string ->
         M xfer.Response)
    (req : xfer.Request) (w : World) (p : VolumeSnapshot) :
  report.ParseVolumeSnapshotNodeID (report.MakeVolumeSnapshotNodeID (UID p)) =
    Some (UID p) →
  xfer.NodeID req = GetNode_ID p →
  p ∈ volumeSnapshotStore (client r) →
  ∃ q : VolumeSnapshot,
    q ∈ volumeSnapshotStore (client r) ∧ UID q = UID p ∧
    Part001.CaptureVolumeSnapshot r f req w =
      f req (Namespace q) (Name q) (GetVolumeName q) (GetCapacity q)
        (w ++ [EvWalk "VolumeSnapshots"]).
Proof.
  intros Hround Hid Hin.
  destruct (last_match_is_Some (fun x : VolumeSnapshot => UID x) (UID p) _ p
              Hin eq_refl) as [q Hq].
  destruct (last_match_Some _ _ _ _ Hq) as [Hq_in Hq_uid].
  exists q. split; [done|]. split; [done|].
  pose proof (Part001_capture_eq r Part001.AVolumeSnapshot f req w) as E.
  cbn [Part001.capture Part001.parse Part001.uid_of Part001.store
       Part001.walked Part001.invoke Part001.Handle] in E.
  unfold GetNode_ID in Hid.
  by rewrite E, Hid, Hround, Hq.
Qed.

(** * Further properties of the dispatcher *)

(** ** The stream-to-pipe bridge *)

(** X1.  When the client cannot produce the stream, [GetLogs] (both
    revisions) and [describe] answer with the client's error message and
    stop there: the client call is the only effect, no pipe registration is
    attempted and no callback is scheduled. *)
Theorem stream_fetch_failure_skips_registration `{report.Pkg} `{Resources}
    (r : Reporter) (req : xfer.Request) (namespaceID resourceID : string)
    (containerNames : list string) (groupKind : schema.GroupKind)
    (err : error) (w : World) :
  (doGetLogs (client r) namespaceID resourceID containerNames = Err err →
   Part001.GetLogs r req namespaceID resourceID containerNames groupKind w =
     ({| xfer.Value := ""; xfer.Error := err; xfer.Pipe := "";
         xfer.RemovedNode := "" |},
      w ++ [EvGetLogs namespaceID resourceID containerNames])
   ∧ Part000.GetLogs r req namespaceID resourceID containerNames w =
     ({| xfer.Value := ""; xfer.Error := err; xfer.Pipe := "";
         xfer.RemovedNode := "" |},
      w ++ [EvGetLogs namespaceID resourceID containerNames]))
  ∧
  (doDescribe (client r) namespaceID resourceID groupKind = Err err →
   Part001.describe r req namespaceID resourceID groupKind w =
     ({| xfer.Value := ""; xfer.Error := err; xfer.Pipe := "";
         xfer.RemovedNode := "" |},
      w ++ [EvDescribe namespaceID resourceID groupKind])).
Proof.
  split; intros Herr; [split|].
  - unfold Part001.GetLogs, client.GetLogs, bind, emit, ret. by rewrite Herr.
  - unfold Part000.GetLogs, client.GetLogs, bind, emit, ret. by rewrite Herr.
  - unfold Part001.describe, client.Describe, bind, emit, ret. by rewrite Herr.
Qed.

Lemma stream_fetch_failure_skips_registration_witness :
  let r := Scenario.refused [Example.foo] in
  let req := Example.request "kubernetes_get_logs" "pod:abc" in
  Part001.GetLogs r req "ns1" "foo" ["main"] (ResourceMap "Pod") [] =
    (xfer.ResponseError (Some "refused"), [EvGetLogs "ns1" "foo" ["main"]])
  ∧ Part001.describe r req "ns1" "foo" (ResourceMap "Pod") [] =
    (xfer.ResponseError (Some "refused"),
     [EvDescribe "ns1" "foo" (ResourceMap "Pod")]).
Proof.
  intros r req. split.
  - apply (proj1 (proj1 (stream_fetch_failure_skips_registration r req "ns1"
             "foo" ["main"] (ResourceMap "Pod") "refused" []) eq_refl)).
  - apply (proj2 (stream_fetch_failure_skips_registration r req "ns1"
             "foo" ["main"] (ResourceMap "Pod") "refused" []) eq_refl).
Defined.

(** X2.  When the client produces a stream [rc] and the pipe transport
    accepts the registration under [id], [GetLogs] (both revisions) and
    [describe] answer with [id] in the pipe field and nothing else.  The
    channel that was registered for the request's session reads from [rc]
    and writes to [Discard], and the callback scheduled on the pipe closes
    [rc]: the stream is not leaked and was not closed during the call. *)
Theorem stream_bridge_success `{report.Pkg} `{Resources}
    (r : Reporter) (req : xfer.Request) (namespaceID resourceID : string)
    (containerNames : list string) (groupKind : schema.GroupKind)
    (rc : ReadCloser) (id : string) (w : World) :
  controls.PipeConnection (pipes r) (xfer.AppID req)
    {| Reader := rc; Writer_ := Discard |} = Ok id →
  let bridged (first : Event) : xfer.Response * World :=
    ({| xfer.Value := ""; xfer.Error := ""; xfer.Pipe := id;
        xfer.RemovedNode := "" |},
     w ++ [first;
           EvNewPipeFromEnds {| Reader := rc; Writer_ := Discard |}
             (xfer.AppID req);
           EvOnClose id (CloseStream rc)]) in
  (doGetLogs (client r) namespaceID resourceID containerNames = Ok rc →
   Part001.GetLogs r req namespaceID resourceID containerNames groupKind w =
     bridged (EvGetLogs namespaceID resourceID containerNames)
   ∧ Part000.GetLogs r req namespaceID resourceID containerNames w =
     bridged (EvGetLogs namespaceID resourceID containerNames))
  ∧
  (doDescribe (client r) namespaceID resourceID groupKind = Ok rc →
   Part001.describe r req namespaceID resourceID groupKind w =
     bridged (EvDescribe namespaceID resourceID groupKind))
  ∧
  (∀ first : Event,
     is_close_of rc first = false →
     leaked rc (bridged first).2 = false
     ∧ close_count rc (bridged first).2 = close_count rc w).
Proof.
  intros Hpipe bridged. split; [|split].
  - intros Hok. split.
    + unfold Part001.GetLogs, client.GetLogs, controls.NewPipeFromEnds,
        controls.OnClose, bind, emit, ret.
      by rewrite Hok, Hpipe, <- !app_assoc.
    + unfold Part000.GetLogs, client.GetLogs, controls.NewPipeFromEnds,
        controls.OnClose, bind, emit, ret.
      by rewrite Hok, Hpipe, <- !app_assoc.
  - intros Hok.
    unfold Part001.describe, client.Describe, controls.NewPipeFromEnds,
      controls.OnClose, bind, emit, ret.
    by rewrite Hok, Hpipe, <- !app_assoc.
  - intros first Hfirst. subst bridged. cbn [snd]. split.
    + rewrite leaked_app. apply andb_false_intro2.
      unfold leaked. cbn [existsb is_release_of is_close_of].
      by rewrite Nat.eqb_refl, !orb_true_r, andb_false_r.
    + rewrite close_count_app. unfold close_count at 2.
      cbn [List.filter is_close_of]. rewrite Hfirst. cbn. lia.
Qed.

Lemma stream_bridge_success_witness :
  let r := Scenario.connected [Example.foo] in
  let req := Example.request "kubernetes_get_logs" "pod:abc" in
  let rw := {| Reader := Example.stream; Writer_ := Discard |} in
  Part001.GetLogs r req "ns1" "foo" ["main"] (ResourceMap "Pod") [] =
    ({| xfer.Value := ""; xfer.Error := ""; xfer.Pipe := "pipe-1";
        xfer.RemovedNode := "" |},
     [EvGetLogs "ns1" "foo" ["main"]; EvNewPipeFromEnds rw "app";
      EvOnClose "pipe-1" (CloseStream Example.stream)]).
Proof.
  intros r req rw.
  assert (Hpipe : controls.PipeConnection (pipes r) (xfer.AppID req) rw =
                    Ok "pipe-1") by reflexivity.
  apply (proj1 (proj1 (stream_bridge_success r req "ns1" "foo" ["main"]
                         (ResourceMap "Pod") Example.stream "pipe-1" [] Hpipe)
                  eq_refl)).
Defined.

(** ** From the registry to the client *)

Lemma Part001_dispatch `{report.Pkg} `{Resources} (r : Reporter)
    (registry : HandlerRegistry) (req : xfer.Request) (w : World)
    (id : string) (h : xfer.ControlHandlerFunc) :
  NoDup (Part001.registered r).*1 →
  (id, h) ∈ Part001.registered r →
  xfer.Control req = id →
  controls.HandleControlRequest (Part001.registerControls r registry) req w =
    h req w.
Proof.
  intros Hnd Hin Hctl. unfold controls.HandleControlRequest.
  pose proof (Part001_registered_lookup r registry id h Hnd Hin) as E.
  unfold xfer.ControlHandlerFunc in *. by rewrite Hctl, E.
Qed.

Lemma Part000_dispatch `{report.Pkg} (r : Reporter)
    (registry : HandlerRegistry) (req : xfer.Request) (w : World)
    (id : string) (h : xfer.ControlHandlerFunc) :
  NoDup (Part000.registered r).*1 →
  (id, h) ∈ Part000.registered r →
  xfer.Control req = id →
  controls.HandleControlRequest (Part000.registerControls r registry) req w =
    h req w.
Proof.
  intros Hnd Hin Hctl. unfold controls.HandleControlRequest.
  pose proof (Part000_registered_lookup r registry id h Hnd Hin) as E.
  unfold xfer.ControlHandlerFunc in *. by rewrite Hctl, E.
Qed.

Lemma Part001_capture_resolved `{report.Pkg} `{Resources} (r : Reporter)
    (a : Part001.Adapter) (f : Part001.Continuation a)
    (req : xfer.Request) (w : World) (uid : string) (h : Part001.Handle a) :
  Part001.parse a (xfer.NodeID req) = Some uid →
  last_match (Part001.uid_of a) uid (Part001.store a (client r)) = Some h →
  Part001.capture r a f req w =
    Part001.invoke a f req h (w ++ [Part001.walked a]).
Proof. intros Hp Hl. by rewrite Part001_capture_eq, Hp, Hl. Qed.

Lemma Part000_capture_resolved `{report.Pkg} (r : Reporter)
    (a : Part000.Adapter) (f : Part000.Continuation a)
    (req : xfer.Request) (w : World) (uid : string) (h : Part000.Handle a) :
  Part000.parse a (xfer.NodeID req) = Some uid →
  last_match (Part000.uid_of a) uid (Part000.store a (client r)) = Some h →
  Part000.capture r a f req w =
    Part000.invoke a f req h (w ++ [Part000.walked a]).
Proof. intros Hp Hl. by rewrite Part000_capture_eq, Hp, Hl. Qed.

Ltac run_handler :=
  unfold Part001.deletePod, Part001.deleteVolumeSnapshot,
    Part001.createVolumeSnapshot, Part001.cloneVolumeSnapshot,
    Part001.ScaleUp, Part001.ScaleDown, Part001.describePod,
    Part001.describePVC, Part000.deletePod, Part000.deleteVolumeSnapshot,
    Part000.createSnapshot, Part000.ScaleUp, Part000.ScaleDown,
    client.DeletePod, client.DeleteVolumeSnapshot, client.CreateSnapshot,
    client.CreateVolumeSnapshot, client.CloneVolumeSnapshot, client.ScaleUp,
    client.ScaleDown, bind, emit, ret.

(** X3.  Dispatching the delete-volume-snapshot control for a request whose
    node identifier decodes to [uid], when [q] is the last cached snapshot
    with that unique id: the snapshots are walked, the client's
    [DeleteVolumeSnapshot] is called once with the namespace and name of [q]
    (the current revision's handler receives, and ignores, the volume name
    and capacity), and the answer is the request's node identifier as removed
    node on success, the client's message as error otherwise.  Control
    identifiers are pairwise distinct. *)
Theorem dispatch_delete_volume_snapshot `{report.Pkg} `{Resources}
    (r : Reporter) (registry : HandlerRegistry) (req : xfer.Request)
    (w : World) (uid : string) (q : VolumeSnapshot) :
  xfer.Control req = report.KubernetesDeleteVolumeSnapshot →
  report.ParseVolumeSnapshotNodeID (xfer.NodeID req) = Some uid →
  last_match (fun x : VolumeSnapshot => UID x) uid
    (volumeSnapshotStore (client r)) = Some q →
  let expected : xfer.Response * World :=
    (match doDeleteVolumeSnapshot (client r) (Namespace q) (Name q) with
     | None => {| xfer.Value := ""; xfer.Error := ""; xfer.Pipe := "";
                  xfer.RemovedNode := xfer.NodeID req |}
     | Some err => {| xfer.Value := ""; xfer.Error := err; xfer.Pipe := "";
                      xfer.RemovedNode := "" |}
     end,
     w ++ [EvWalk "VolumeSnapshots";
           EvDeleteVolumeSnapshot (Namespace q) (Name q)]) in
  (NoDup (Part001.registered r).*1 →
   controls.HandleControlRequest (Part001.registerControls r registry) req w
     = expected)
  ∧
  (NoDup (Part000.registered r).*1 →
   controls.HandleControlRequest (Part000.registerControls r registry) req w
     = expected).
Proof.
  intros Hctl Hparse Hq expected. subst expected. split; intros Hnd.
  - rewrite (Part001_dispatch r registry req w _
               (Part001.CaptureVolumeSnapshot r (Part001.deleteVolumeSnapshot r))
               Hnd) by (done || (unfold Part001.registered; in_literal)).
    etrans; [exact (Part001_capture_resolved r Part001.AVolumeSnapshot
               (Part001.deleteVolumeSnapshot r) req w uid q Hparse Hq)|].
    cbn [Part001.invoke Part001.walked]. run_handler.
    rewrite <- app_assoc. by destruct (doDeleteVolumeSnapshot _ _ _).
  - rewrite (Part000_dispatch r registry req w _
               (Part000.CaptureVolumeSnapshot r (Part000.deleteVolumeSnapshot r))
               Hnd) by (done || (unfold Part000.registered; in_literal)).
    etrans; [exact (Part000_capture_resolved r Part000.AVolumeSnapshot
               (Part000.deleteVolumeSnapshot r) req w uid q Hparse Hq)|].
    cbn [Part000.invoke Part000.walked]. run_handler.
    rewrite <- app_assoc. by destruct (doDeleteVolumeSnapshot _ _ _).
Qed.

Lemma dispatch_delete_volume_snapshot_witness :
  let req := Example.request "kubernetes_delete_volume_snapshot" "snapshot:p1" in
  controls.HandleControlRequest
    (Part001.registerControls (Example.reporter []) ∅) req [] =
    ({| xfer.Value := ""; xfer.Error := ""; xfer.Pipe := "";
        xfer.RemovedNode := "snapshot:p1" |},
     [EvWalk "VolumeSnapshots"; EvDeleteVolumeSnapshot "ns1" "snap"])
  ∧
  controls.HandleControlRequest
    (Part000.registerControls (Scenario.refused []) ∅) req [] =
    ({| xfer.Value := ""; xfer.Error := "refused"; xfer.Pipe := "";
        xfer.RemovedNode := "" |},
     [EvWalk "VolumeSnapshots"; EvDeleteVolumeSnapshot "ns1" "snap"]).
Proof.
  intros req.
  assert (Hctl : xfer.Control req = report.KubernetesDeleteVolumeSnapshot)
    by reflexivity.
  assert (Hparse : report.ParseVolumeSnapshotNodeID (xfer.NodeID req) =
                     Some "p1") by reflexivity.
  split.
  - assert (Hq : last_match (fun x : VolumeSnapshot => UID x) "p1"
                   (volumeSnapshotStore (client (Example.reporter []))) =
                 Some {| volumeSnapshot_Meta := Example.meta "p1" "ns1" "snap";
                         GetVolumeName := "claim"; vs_capacity := "5Gi" |})
      by reflexivity.
    apply (proj1 (dispatch_delete_volume_snapshot (Example.reporter []) ∅ req
                    [] "p1" _ Hctl Hparse Hq)).
    apply Example_Part001_NoDup.
  - assert (Hq : last_match (fun x : VolumeSnapshot => UID x) "p1"
                   (volumeSnapshotStore (client (Scenario.refused []))) =
                 Some {| volumeSnapshot_Meta := Example.meta "p1" "ns1" "snap";
                         GetVolumeName := "claim"; vs_capacity := "5Gi" |})
      by reflexivity.
    apply (proj2 (dispatch_delete_volume_snapshot (Scenario.refused []) ∅ req
                    [] "p1" _ Hctl Hparse Hq)).
    apply Example_Part000_NoDup.
Defined.

(** X4.  Dispatching the scale-up (respectively scale-down) control for a
    request whose node identifier decodes to [uid], when [d] is the last
    cached deployment with that unique id: the deployments are walked, the
    client's [ScaleUp] (respectively [ScaleDown]) is called once with the
    kind [report.Deployment] and the namespace and name of [d], and the
    answer is the empty response on success, the client's message as error
    otherwise.  Both revisions; control identifiers pairwise distinct. *)
Theorem dispatch_scale `{report.Pkg} `{Resources}
    (r : Reporter) (registry : HandlerRegistry) (req : xfer.Request)
    (w : World) (uid : string) (d : Deployment) :
  report.ParseDeploymentNodeID (xfer.NodeID req) = Some uid →
  last_match (fun x : Deployment => UID x) uid (deploymentStore (client r))
    = Some d →
  let up : xfer.Response * World :=
    (xfer.ResponseError
       (doScaleUp (client r) report.Deployment (Namespace d) (Name d)),
     w ++ [EvWalk "Deployments";
           EvScaleUp report.Deployment (Namespace d) (Name d)]) in
  let down : xfer.Response * World :=
    (xfer.ResponseError
       (doScaleDown (client r) report.Deployment (Namespace d) (Name d)),
     w ++ [EvWalk "Deployments";
           EvScaleDown report.Deployment (Namespace d) (Name d)]) in
  (NoDup (Part001.registered r).*1 →
   (xfer.Control req = report.KubernetesScaleUp →
    controls.HandleControlRequest (Part001.registerControls r registry) req w
      = up)
   ∧ (xfer.Control req = report.KubernetesScaleDown →
      controls.HandleControlRequest (Part001.registerControls r registry)
        req w = down))
  ∧
  (NoDup (Part000.registered r).*1 →
   (xfer.Control req = report.KubernetesScaleUp →
    controls.HandleControlRequest (Part000.registerControls r registry) req w
      = up)
   ∧ (xfer.Control req = report.KubernetesScaleDown →
      controls.HandleControlRequest (Part000.registerControls r registry)
        req w = down)).
Proof.
  intros Hparse Hd up down. subst up down.
  split; intros Hnd; split; intros Hctl.
  - rewrite (Part001_dispatch r registry req w _
               (Part001.CaptureDeployment r (Part001.ScaleUp r)) Hnd)
      by (done || (unfold Part001.registered; in_literal)).
    etrans; [exact (Part001_capture_resolved r Part001.ADeployment
               (Part001.ScaleUp r) req w uid d Hparse Hd)|].
    cbn [Part001.invoke Part001.walked]. run_handler.
    by rewrite <- app_assoc.
  - rewrite (Part001_dispatch r registry req w _
               (Part001.CaptureDeployment r (Part001.ScaleDown r)) Hnd)
      by (done || (unfold Part001.registered; in_literal)).
    etrans; [exact (Part001_capture_resolved r Part001.ADeployment
               (Part001.ScaleDown r) req w uid d Hparse Hd)|].
    cbn [Part001.invoke Part001.walked]. run_handler.
    by rewrite <- app_assoc.
  - rewrite (Part000_dispatch r registry req w _
               (Part000.CaptureDeployment r (Part000.ScaleUp r)) Hnd)
      by (done || (unfold Part000.registered; in_literal)).
    etrans; [exact (Part000_capture_resolved r Part000.ADeployment
               (Part000.ScaleUp r) req w uid d Hparse Hd)|].
    cbn [Part000.invoke Part000.walked]. run_handler.
    by rewrite <- app_assoc.
  - rewrite (Part000_dispatch r registry req w _
               (Part000.CaptureDeployment r (Part000.ScaleDown r)) Hnd)
      by (done || (unfold Part000.registered; in_literal)).
    etrans; [exact (Part000_capture_resolved r Part000.ADeployment
               (Part000.ScaleDown r) req w uid d Hparse Hd)|].
    cbn [Part000.invoke Part000.walked]. run_handler.
    by rewrite <- app_assoc.
Qed.

Lemma dispatch_scale_witness :
  controls.HandleControlRequest
    (Part001.registerControls (Example.reporter []) ∅)
    (Example.request "kubernetes_scale_up" "deployment:d1") [] =
    (xfer.empty, [EvWalk "Deployments"; EvScaleUp "deployment" "ns1" "web"])
  ∧
  controls.HandleControlRequest
    (Part000.registerControls (Scenario.refused []) ∅)
    (Example.request "kubernetes_scale_down" "deployment:d1") [] =
    (xfer.ResponseError (Some "refused"),
     [EvWalk "Deployments"; EvScaleDown "deployment" "ns1" "web"]).
Proof.
  assert (Hparse : ∀ c, report.ParseDeploymentNodeID
            (xfer.NodeID (Example.request c "deployment:d1")) = Some "d1")
    by reflexivity.
  split.
  - assert (Hd : last_match (fun x : Deployment => UID x) "d1"
                   (deploymentStore (client (Example.reporter []))) =
                 Some {| deployment_Meta := Example.meta "d1" "ns1" "web" |})
      by reflexivity.
    apply (proj1 (proj1 (dispatch_scale (Example.reporter []) ∅ _ [] "d1" _
                           (Hparse "kubernetes_scale_up") Hd)
                    (Example_Part001_NoDup _))).
    reflexivity.
  - assert (Hd : last_match (fun x : Deployment => UID x) "d1"
                   (deploymentStore (client (Scenario.refused []))) =
                 Some {| deployment_Meta := Example.meta "d1" "ns1" "web" |})
      by reflexivity.
    apply (proj2 (proj2 (dispatch_scale (Scenario.refused []) ∅ _ [] "d1" _
                           (Hparse "kubernetes_scale_down") Hd)
                    (Example_Part000_NoDup _))).
    reflexivity.
Defined.

(** X5.  What the snapshot-creating controls send to the client.  In the
    current revision, create-volume-snapshot resolves a persistent volume
    claim and calls [CreateVolumeSnapshot] with the claim's namespace, name
    and capacity; clone-volume-snapshot resolves a volume snapshot and calls
    [CloneVolumeSnapshot] with the snapshot's namespace, name, volume name
    and capacity; either answers with the empty response on success.  In the
    earlier revision, create-snapshot resolves a persistent volume and calls
    [CreateSnapshot] with its name alone, answering with the control
    identifier as value.  A client error becomes the error of the response;
    there is one client call in every case. *)
Theorem dispatch_snapshot_creation `{report.Pkg} `{Resources}
    (r : Reporter) (registry : HandlerRegistry) (req : xfer.Request)
    (w : World) (uid : string) :
  (NoDup (Part001.registered r).*1 →
   (∀ c : PersistentVolumeClaim,
      xfer.Control req = report.KubernetesCreateVolumeSnapshot →
      report.ParsePersistentVolumeClaimNodeID (xfer.NodeID req) = Some uid →
      last_match (fun x : PersistentVolumeClaim => UID x) uid
        (persistentVolumeClaimStore (client r)) = Some c →
      controls.HandleControlRequest (Part001.registerControls r registry)
        req w =
        (xfer.ResponseError
           (doCreateVolumeSnapshot (client r) (Namespace c) (Name c)
              (GetCapacity c)),
         w ++ [EvWalk "PersistentVolumeClaims";
               EvCreateVolumeSnapshot (Namespace c) (Name c) (GetCapacity c)]))
   ∧
   (∀ s : VolumeSnapshot,
      xfer.Control req = report.KubernetesCloneVolumeSnapshot →
      report.ParseVolumeSnapshotNodeID (xfer.NodeID req) = Some uid →
      last_match (fun x : VolumeSnapshot => UID x) uid
        (volumeSnapshotStore (client r)) = Some s →
      controls.HandleControlRequest (Part001.registerControls r registry)
        req w =
        (xfer.ResponseError
           (doCloneVolumeSnapshot (client r) (Namespace s) (Name s)
              (GetVolumeName s) (GetCapacity s)),
         w ++ [EvWalk "VolumeSnapshots";
               EvCloneVolumeSnapshot (Namespace s) (Name s) (GetVolumeName s)
                 (GetCapacity s)])))
  ∧
  (NoDup (Part000.registered r).*1 →
   ∀ v : PersistentVolume,
     xfer.Control req = report.KubernetesCreateSnapshot →
     report.ParsePersistentVolumeNodeID (xfer.NodeID req) = Some uid →
     last_match (fun x : PersistentVolume => UID x) uid
       (persistentVolumeStore (client r)) = Some v →
     controls.HandleControlRequest (Part000.registerControls r registry)
       req w =
       (match doCreateSnapshot (client r) (Name v) with
        | Ok _ => {| xfer.Value := xfer.Control req; xfer.Error := "";
                     xfer.Pipe := ""; xfer.RemovedNode := "" |}
        | Err err => xfer.ResponseError (Some err)
        end,
        w ++ [EvWalk "PersistentVolumes"; EvCreateSnapshot (Name v)])).
Proof.
  split; [intros Hnd; split|intros Hnd].
  - intros c Hctl Hparse Hc.
    rewrite (Part001_dispatch r registry req w _
               (Part001.CapturePersistentVolumeClaim r
                  (Part001.createVolumeSnapshot r)) Hnd)
      by (done || (unfold Part001.registered; in_literal)).
    etrans; [exact (Part001_capture_resolved r Part001.APersistentVolumeClaim
               (Part001.createVolumeSnapshot r) req w uid c Hparse Hc)|].
    cbn [Part001.invoke Part001.walked]. run_handler.
    rewrite <- app_assoc. by destruct (doCreateVolumeSnapshot _ _ _ _).
  - intros s Hctl Hparse Hs.
    rewrite (Part001_dispatch r registry req w _
               (Part001.CaptureVolumeSnapshot r
                  (Part001.cloneVolumeSnapshot r)) Hnd)
      by (done || (unfold Part001.registered; in_literal)).
    etrans; [exact (Part001_capture_resolved r Part001.AVolumeSnapshot
               (Part001.cloneVolumeSnapshot r) req w uid s Hparse Hs)|].
    cbn [Part001.invoke Part001.walked]. run_handler.
    rewrite <- app_assoc. by destruct (doCloneVolumeSnapshot _ _ _ _ _).
  - intros v Hctl Hparse Hv.
    rewrite (Part000_dispatch r registry req w _
               (Part000.CapturePersistentVolume r (Part000.createSnapshot r))
               Hnd)
      by (done || (unfold Part000.registered; in_literal)).
    etrans; [exact (Part000_capture_resolved r Part000.APersistentVolume
               (Part000.createSnapshot r) req w uid v Hparse Hv)|].
    cbn [Part000.invoke Part000.walked]. run_handler.
    rewrite <- app_assoc. by destruct (doCreateSnapshot _ _).
Qed.

Lemma dispatch_snapshot_creation_witness :
  let r := Example.reporter [] in
  controls.HandleControlRequest (Part001.registerControls r ∅)
    (Example.request "kubernetes_clone_volume_snapshot" "snapshot:p1") [] =
    (xfer.empty,
     [EvWalk "VolumeSnapshots";
      EvCloneVolumeSnapshot "ns1" "snap" "claim" "5Gi"])
  ∧
  controls.HandleControlRequest (Part000.registerControls r ∅)
    (Example.request "kubernetes_create_snapshot" "pv:v1") [] =
    ({| xfer.Value := "kubernetes_create_snapshot"; xfer.Error := "";
        xfer.Pipe := ""; xfer.RemovedNode := "" |},
     [EvWalk "PersistentVolumes"; EvCreateSnapshot "disk"]).
Proof.
  intros r. split.
  - assert (Hs : last_match (fun x : VolumeSnapshot => UID x) "p1"
                   (volumeSnapshotStore (client r)) =
                 Some {| volumeSnapshot_Meta := Example.meta "p1" "ns1" "snap";
                         GetVolumeName := "claim"; vs_capacity := "5Gi" |})
      by reflexivity.
    assert (Hparse : report.ParseVolumeSnapshotNodeID
              (xfer.NodeID (Example.request "kubernetes_clone_volume_snapshot"
                              "snapshot:p1")) = Some "p1") by reflexivity.
    assert (Hctl : xfer.Control
              (Example.request "kubernetes_clone_volume_snapshot"
                 "snapshot:p1") = report.KubernetesCloneVolumeSnapshot)
      by reflexivity.
    apply (proj2 (proj1 (dispatch_snapshot_creation r ∅
                           (Example.request "kubernetes_clone_volume_snapshot"
                              "snapshot:p1") [] "p1")
                    (Example_Part001_NoDup r)) _ Hctl Hparse Hs).
  - assert (Hv : last_match (fun x : PersistentVolume => UID x) "v1"
                   (persistentVolumeStore (client r)) =
                 Some {| persistentVolume_Meta :=
                           Example.meta "v1" "ns9" "disk" |})
      by reflexivity.
    assert (Hparse : report.ParsePersistentVolumeNodeID
              (xfer.NodeID (Example.request "kubernetes_create_snapshot"
                              "pv:v1")) = Some "v1") by reflexivity.
    assert (Hctl : xfer.Control
              (Example.request "kubernetes_create_snapshot" "pv:v1") =
              report.KubernetesCreateSnapshot) by reflexivity.
    apply (proj2 (dispatch_snapshot_creation r ∅
                    (Example.request "kubernetes_create_snapshot" "pv:v1") []
                    "v1")
             (Example_Part000_NoDup r) _ Hctl Hparse Hv).
Defined.

(** X6.  Dispatching the get-logs control for a request whose node
    identifier decodes to [uid], when [p] is the last cached pod with that
    unique id, is running [GetLogs] on the namespace, the name and the
    container names of [p] right after the walk of the pods: the first two
    effects are the walk and the client's [GetLogs] call with exactly those
    arguments.  Both revisions; control identifiers pairwise distinct. *)
Theorem dispatch_get_logs `{report.Pkg} `{Resources}
    (r : Reporter) (registry : HandlerRegistry) (req : xfer.Request)
    (w : World) (uid : string) (p : Pod) :
  xfer.Control req = report.KubernetesGetLogs →
  report.ParsePodNodeID (xfer.NodeID req) = Some uid →
  last_match (fun x : Pod => UID x) uid (podStore (client r)) = Some p →
  (NoDup (Part001.registered r).*1 →
   let out :=
     controls.HandleControlRequest (Part001.registerControls r registry)
       req w in
   out = Part001.GetLogs r req (Namespace p) (Name p) (ContainerNames p)
           (ResourceMap "Pod") (w ++ [EvWalk "Pods"])
   ∧ ∃ rest : World,
       out.2 = w ++ [EvWalk "Pods";
                     EvGetLogs (Namespace p) (Name p) (ContainerNames p)]
                 ++ rest)
  ∧
  (NoDup (Part000.registered r).*1 →
   let out :=
     controls.HandleControlRequest (Part000.registerControls r registry)
       req w in
   out = Part000.GetLogs r req (Namespace p) (Name p) (ContainerNames p)
           (w ++ [EvWalk "Pods"])
   ∧ ∃ rest : World,
       out.2 = w ++ [EvWalk "Pods";
                     EvGetLogs (Namespace p) (Name p) (ContainerNames p)]
                 ++ rest).
Proof.
  intros Hctl Hparse Hp. split; intros Hnd out; subst out.
  - rewrite (Part001_dispatch r registry req w _
               (Part001.CapturePod r (Part001.GetLogs r)) Hnd)
      by (done || (unfold Part001.registered; in_literal)).
    assert (E : Part001.CapturePod r (Part001.GetLogs r) req w =
                Part001.GetLogs r req (Namespace p) (Name p) (ContainerNames p)
                  (ResourceMap "Pod") (w ++ [EvWalk "Pods"]))
      by exact (Part001_capture_resolved r Part001.APod (Part001.GetLogs r)
                  req w uid p Hparse Hp).
    rewrite E. split; [done|].
    unfold Part001.GetLogs, client.GetLogs, controls.NewPipeFromEnds,
      controls.OnClose, bind, emit, ret.
    destruct (doGetLogs _ _ _ _) as [rc|err]; cbn [snd].
    + destruct (controls.PipeConnection _ _ _) as [id|err]; cbn [snd];
        rewrite <- !app_assoc; cbn [app]; eexists; reflexivity.
    + rewrite <- app_assoc. by exists [].
  - rewrite (Part000_dispatch r registry req w _
               (Part000.CapturePod r (Part000.GetLogs r)) Hnd)
      by (done || (unfold Part000.registered; in_literal)).
    assert (E : Part000.CapturePod r (Part000.GetLogs r) req w =
                Part000.GetLogs r req (Namespace p) (Name p) (ContainerNames p)
                  (w ++ [EvWalk "Pods"]))
      by exact (Part000_capture_resolved r Part000.APod (Part000.GetLogs r)
                  req w uid p Hparse Hp).
    rewrite E. split; [done|].
    unfold Part000.GetLogs, client.GetLogs, controls.NewPipeFromEnds,
      controls.OnClose, bind, emit, ret.
    destruct (doGetLogs _ _ _ _) as [rc|err]; cbn [snd].
    + destruct (controls.PipeConnection _ _ _) as [id|err]; cbn [snd];
        rewrite <- !app_assoc; cbn [app]; eexists; reflexivity.
    + rewrite <- app_assoc. by exists [].
Qed.

Lemma dispatch_get_logs_witness :
  let r := Scenario.connected [Example.foo'; Example.foo] in
  let req := Example.request "kubernetes_get_logs" "pod:abc" in
  controls.HandleControlRequest (Part001.registerControls r ∅) req [] =
    Part001.GetLogs r req "ns1" "foo" ["main"] (ResourceMap "Pod")
      [EvWalk "Pods"]
  ∧
  controls.HandleControlRequest (Part000.registerControls r ∅) req [] =
    Part000.GetLogs r req "ns1" "foo" ["main"] [EvWalk "Pods"].
Proof.
  intros r req.
  assert (Hparse : report.ParsePodNodeID (xfer.NodeID req) = Some "abc")
    by reflexivity.
  assert (Hp : last_match (fun x : Pod => UID x) "abc" (podStore (client r))
               = Some Example.foo) by reflexivity.
  assert (Hctl : xfer.Control req = report.KubernetesGetLogs) by reflexivity.
  destruct (dispatch_get_logs r ∅ req [] "abc" Example.foo Hctl Hparse Hp)
    as [H1 H0].
  split.
  - exact (proj1 (H1 (Example_Part001_NoDup r))).
  - exact (proj1 (H0 (Example_Part000_NoDup r))).
Defined.

Lemma describe_trace `{report.Pkg} `{Resources} (r : Reporter)
    (req : xfer.Request) (ns name : string) (groupKind : schema.GroupKind)
    (w : World) :
  ∃ rest : World,
    (Part001.describe r req ns name groupKind w).2 =
      w ++ [EvDescribe ns name groupKind] ++ rest.
Proof.
  unfold Part001.describe, client.Describe, controls.NewPipeFromEnds,
    controls.OnClose, bind, emit, ret.
  destruct (doDescribe _ _ _ _) as [rc|err]; cbn [snd].
  - destruct (controls.PipeConnection _ _ _) as [id|err]; cbn [snd];
      rewrite <- !app_assoc; cbn [app]; eexists; reflexivity.
  - by exists [].
Qed.

(** X7.  The nine describe controls of the current revision.  Dispatching
    the describe control bound behind adapter [a], for a request whose node
    identifier decodes to [uid] under [a], when [h] is the last handle of
    [a]'s store with that unique id, is running [describe] right after the
    walk, on the name of [h], on the group kind that [ResourceMap] holds for
    [a]'s resource, and on the namespace of [h] (the empty string for a
    storage class or a persistent volume); container names and capacity,
    which the pod and claim adapters also hand over, are dropped.  The first
    two effects are the walk and that [Describe] call. *)
Theorem dispatch_describe `{report.Pkg} `{Resources}
    (r : Reporter) (registry : HandlerRegistry) (req : xfer.Request)
    (w : World) (a : Part001.Adapter) (id uid : string)
    (h : Part001.Handle a) :
  NoDup (Part001.registered r).*1 →
  describe_control a = Some id →
  xfer.Control req = id →
  Part001.parse a (xfer.NodeID req) = Some uid →
  last_match (Part001.uid_of a) uid (Part001.store a (client r)) = Some h →
  let out :=
    controls.HandleControlRequest (Part001.registerControls r registry)
      req w in
  out = Part001.describe r req (passed_namespace a h) (Name (meta_of a h))
          (ResourceMap (resource_key a)) (w ++ [Part001.walked a])
  ∧ ∃ rest : World,
      out.2 = w ++ [Part001.walked a;
                    EvDescribe (passed_namespace a h) (Name (meta_of a h))
                      (ResourceMap (resource_key a))] ++ rest.
Proof.
  intros Hnd Hid Hctl Hparse Hh out.
  assert (E : out = Part001.describe r req (passed_namespace a h)
                      (Name (meta_of a h)) (ResourceMap (resource_key a))
                      (w ++ [Part001.walked a])).
  { subst out.
    destruct a; cbn [describe_control] in Hid; try discriminate Hid;
      injection Hid as <-;
      (etrans;
         [eapply (Part001_dispatch r registry req w);
            [exact Hnd|idtac|exact Hctl];
            unfold Part001.registered; in_literal|]);
      (etrans; [exact (Part001_capture_resolved r _ _ req w uid h Hparse Hh)|]);
      reflexivity. }
  split; [exact E|]. rewrite E.
  destruct (describe_trace r req (passed_namespace a h) (Name (meta_of a h))
              (ResourceMap (resource_key a)) (w ++ [Part001.walked a]))
    as [rest Hrest].
  exists rest. rewrite Hrest, <- !app_assoc. reflexivity.
Qed.

Lemma dispatch_describe_witness :
  let r := Example.reporter [] in
  let req := Example.request "kubernetes_describe_sc" "sc:s1" in
  controls.HandleControlRequest (Part001.registerControls r ∅) req [] =
    Part001.describe r req "" "fast" (ResourceMap "StorageClass")
      [EvWalk "StorageClasses"].
Proof.
  intros r req.
  assert (Hid : describe_control Part001.AStorageClass =
                  Some "kubernetes_describe_sc") by reflexivity.
  assert (Hctl : xfer.Control req = "kubernetes_describe_sc") by reflexivity.
  assert (Hparse : Part001.parse Part001.AStorageClass (xfer.NodeID req) =
                     Some "s1") by reflexivity.
  assert (Hh : last_match (Part001.uid_of Part001.AStorageClass) "s1"
                 (Part001.store Part001.AStorageClass (client r)) =
               Some {| storageClass_Meta := Example.meta "s1" "ns9" "fast" |})
    by reflexivity.
  exact (proj1 (dispatch_describe r ∅ req [] Part001.AStorageClass _ "s1" _
                  (Example_Part001_NoDup r) Hid Hctl Hparse Hh)).
Defined.

(** ** What every registered handler leaves behind *)

Lemma populated_field_le (s : string) : (populated_field s <= 1)%nat.
Proof. destruct s; cbn; lia. Qed.

Ltac to_capture :=
  match goal with
  | |- context [Part001.CapturePod ?r ?k ?req ?w] =>
      rewrite (Part001_capture_eq r Part001.APod k req w
               : Part001.CapturePod r k req w = _)
  | |- context [Part001.CaptureDeployment ?r ?k ?req ?w] =>
      rewrite (Part001_capture_eq r Part001.ADeployment k req w
               : Part001.CaptureDeployment r k req w = _)
  | |- context [Part001.CapturePersistentVolumeClaim ?r ?k ?req ?w] =>
      rewrite (Part001_capture_eq r Part001.APersistentVolumeClaim k req w
               : Part001.CapturePersistentVolumeClaim r k req w = _)
  | |- context [Part001.CaptureVolumeSnapshot ?r ?k ?req ?w] =>
      rewrite (Part001_capture_eq r Part001.AVolumeSnapshot k req w
               : Part001.CaptureVolumeSnapshot r k req w = _)
  | |- context [Part001.CaptureService ?r ?k ?req ?w] =>
      rewrite (Part001_capture_eq r Part001.AService k req w
               : Part001.CaptureService r k req w = _)
  | |- context [Part001.CaptureDaemonSet ?r ?k ?req ?w] =>
      rewrite (Part001_capture_eq r Part001.ADaemonSet k req w
               : Part001.CaptureDaemonSet r k req w = _)
  | |- context [Part001.CaptureCronJob ?r ?k ?req ?w] =>
      rewrite (Part001_capture_eq r Part001.ACronJob k req w
               : Part001.CaptureCronJob r k req w = _)
  | |- context [Part001.CaptureStatefulSet ?r ?k ?req ?w] =>
      rewrite (Part001_capture_eq r Part001.AStatefulSet k req w
               : Part001.CaptureStatefulSet r k req w = _)
  | |- context [Part001.CaptureStorageClass ?r ?k ?req ?w] =>
      rewrite (Part001_capture_eq r Part001.AStorageClass k req w
               : Part001.CaptureStorageClass r k req w = _)
  | |- context [Part001.CapturePersistentVolume ?r ?k ?req ?w] =>
      rewrite (Part001_capture_eq r Part001.APersistentVolume k req w
               : Part001.CapturePersistentVolume r k req w = _)
  | |- context [Part000.CapturePod ?r ?k ?req ?w] =>
      rewrite (Part000_capture_eq r Part000.APod k req w
               : Part000.CapturePod r k req w = _)
  | |- context [Part000.CaptureDeployment ?r ?k ?req ?w] =>
      rewrite (Part000_capture_eq r Part000.ADeployment k req w
               : Part000.CaptureDeployment r k req w = _)
  | |- context [Part000.CapturePersistentVolume ?r ?k ?req ?w] =>
      rewrite (Part000_capture_eq r Part000.APersistentVolume k req w
               : Part000.CapturePersistentVolume r k req w = _)
  | |- context [Part000.CaptureVolumeSnapshot ?r ?k ?req ?w] =>
      rewrite (Part000_capture_eq r Part000.AVolumeSnapshot k req w
               : Part000.CaptureVolumeSnapshot r k req w = _)
  end;
  cbn [Part001.parse Part001.uid_of Part001.store Part001.walked
       Part001.not_found Part001.invoke Part001.Handle
       Part000.parse Part000.uid_of Part000.store Part000.walked
       Part000.not_found Part000.invoke Part000.Handle].

Ltac run_stream_handler :=
  unfold Part001.GetLogs, Part001.describe, Part000.GetLogs, client.GetLogs,
    client.Describe, controls.NewPipeFromEnds, controls.OnClose, bind, emit,
    ret.

Ltac split_cases :=
  repeat (match goal with
          | |- context [match ?x with _ => _ end] => destruct x eqn:?
          end; cbn [fst snd]).

Ltac bound_fields :=
  try match goal with
      | |- context [xfer.ResponseError ?o] => destruct o
      end;
  unfold populated;
  cbn [xfer.Value xfer.Error xfer.Pipe xfer.RemovedNode xfer.ResponseError
       xfer.ResponseErrorf xfer.empty];
  repeat match goal with
         | |- context [populated_field ?s] =>
             lazymatch goal with
             | _ : (populated_field s <= 1)%nat |- _ => fail
             | _ => pose proof (populated_field_le s)
             end
         end;
  cbn in *; lia.

(** Every handler that either revision registers, run on any request in any
    world, appends to the world a trace of one of five shapes and answers
    with a response of at most one populated field. *)
Lemma registered_handler_outcome `{report.Pkg} `{Resources} (r : Reporter)
    (id : string) (h : xfer.ControlHandlerFunc) (req : xfer.Request)
    (w : World) :
  (id, h) ∈ Part001.registered r ∨ (id, h) ∈ Part000.registered r →
  ∃ (resp : xfer.Response) (d : World),
    h req w = (resp, w ++ d)
    ∧ dispatch_shape d = true
    ∧ (populated resp <= 1)%nat.
Proof.
  intros [Hin|Hin];
    [unfold Part001.registered in Hin|unfold Part000.registered in Hin];
    repeat (apply elem_of_cons in Hin as [Hin|Hin]);
    try (by apply elem_of_nil in Hin);
    injection Hin as -> ->;
    to_capture; run_handler; run_stream_handler; split_cases;
    rewrite <- ?app_assoc; cbn [app];
    lazymatch goal with
    | |- ∃ resp d, (?x, ?w' ++ ?d') = _ ∧ _ => exists x, d'
    | |- ∃ resp d, (?x, _) = _ ∧ _ => exists x, []; rewrite app_nil_r
    end;
    (split; [reflexivity|]);
    (split; [cbn; rewrite ?Nat.eqb_refl; reflexivity|bound_fields]).
Qed.

Lemma dispatch_shape_bounds (d : World) :
  dispatch_shape d = true →
  (calls is_walk d <= 1)%nat
  ∧ (calls is_client_op d <= 1)%nat
  ∧ ∀ rc : ReadCloser, close_count rc d = 0.
Proof.
  intros Hshape.
  assert (Hdone : ∀ w : World,
            (calls is_walk w <= 1)%nat → (calls is_client_op w <= 1)%nat →
            (∀ rc, close_count rc w = 0) →
            (calls is_walk w <= 1)%nat ∧ (calls is_client_op w <= 1)%nat
            ∧ ∀ rc : ReadCloser, close_count rc w = 0) by auto.
  destruct d as [|e1 d]; [apply Hdone; cbn; try lia; done|].
  destruct e1; try discriminate Hshape.
  destruct d as [|e2 d]; [apply Hdone; cbn; try lia; done|].
  destruct d as [|e3 d].
  { destruct e2; try discriminate Hshape; apply Hdone; cbn; try lia; done. }
  destruct e3; try (destruct e2; discriminate Hshape).
  destruct d as [|e4 d].
  { destruct e2; try discriminate Hshape; apply Hdone; cbn; try lia; done. }
  destruct e4; try (destruct e2; discriminate Hshape).
  destruct d as [|e5 d].
  - destruct cb, e2; try discriminate Hshape; apply Hdone; cbn; try lia; done.
  - destruct e2, cb; discriminate Hshape.
Qed.

(** X8.  Whatever the request, the cache, the client and the pipe transport
    do, the response of every handler that [registerControls] binds (either
    revision) has at most one populated field among value, error, pipe and
    removed node. *)
Theorem response_has_at_most_one_field `{report.Pkg} `{Resources}
    (r : Reporter) (id : string) (h : xfer.ControlHandlerFunc)
    (req : xfer.Request) (w : World) :
  (id, h) ∈ Part001.registered r ∨ (id, h) ∈ Part000.registered r →
  (populated (h req w).1 <= 1)%nat.
Proof.
  intros Hin.
  destruct (registered_handler_outcome r id h req w Hin)
    as (resp & d & E & _ & Hpop).
  by rewrite E.
Qed.

Lemma response_has_at_most_one_field_witness :
  let r := Scenario.connected [Example.foo] in
  let req := Example.request "kubernetes_get_logs" "pod:abc" in
  (populated (Part001.CapturePod r (Part001.GetLogs r) req []).1 <= 1)%nat
  ∧ (populated (Part000.CapturePod r (Part000.deletePod r) req []).1 <= 1)%nat.
Proof.
  intros r req. split.
  - apply (response_has_at_most_one_field r "kubernetes_get_logs").
    left. unfold Part001.registered. in_literal.
  - apply (response_has_at_most_one_field r "kubernetes_delete_pod").
    right. unfold Part000.registered. in_literal.
Defined.

(** X9.  Every handler that [registerControls] binds (either revision) only
    appends to the record of effects, and what one dispatch appends is one
    of: nothing; a cache walk; a walk and one client operation; a walk, a
    stream-producing client operation and one pipe registration; the same
    followed by one close callback for the registered stream.  Hence at most
    one walk and at most one client operation per dispatch (no retry), the
    client is never called before the walk, and no stream is closed while
    dispatching. *)
Theorem dispatch_effects_shape `{report.Pkg} `{Resources}
    (r : Reporter) (id : string) (h : xfer.ControlHandlerFunc)
    (req : xfer.Request) (w : World) :
  (id, h) ∈ Part001.registered r ∨ (id, h) ∈ Part000.registered r →
  ∃ d : World,
    (h req w).2 = w ++ d
    ∧ dispatch_shape d = true
    ∧ (calls is_walk d <= 1)%nat
    ∧ (calls is_client_op d <= 1)%nat
    ∧ ∀ rc : ReadCloser, close_count rc (h req w).2 = close_count rc w.
Proof.
  intros Hin.
  destruct (registered_handler_outcome r id h req w Hin)
    as (resp & d & E & Hshape & _).
  destruct (dispatch_shape_bounds d Hshape) as (Hwalk & Hop & Hclose).
  exists d. rewrite E. cbn [snd].
  repeat split; try done.
  intros rc. rewrite close_count_app, Hclose. lia.
Qed.

Lemma dispatch_effects_shape_witness :
  let r := Scenario.connected [Example.foo] in
  let req := Example.request "kubernetes_describe_pod" "pod:abc" in
  ∃ d : World,
    (Part001.CapturePod r (Part001.describePod r) req []).2 = [] ++ d
    ∧ dispatch_shape d = true
    ∧ (calls is_walk d <= 1)%nat
    ∧ (calls is_client_op d <= 1)%nat
    ∧ ∀ rc : ReadCloser,
        close_count rc (Part001.CapturePod r (Part001.describePod r) req []).2
        = close_count rc [].
Proof.
  intros r req.
  apply (dispatch_effects_shape r "kubernetes_describe_pod").
  left. unfold Part001.registered. in_literal.
Defined.

(** ** The registry across start and stop *)

Lemma Batch_remove_lookup_in (toRemove : list string)
    (registry : HandlerRegistry) (id : string) :
  id ∈ toRemove → controls.Batch toRemove ∅ registry !! id = None.
Proof.
  intros Hid. unfold controls.Batch. rewrite (left_id_L ∅ (∪)).
  induction toRemove as [|id' ids IH]; cbn [foldr];
    [by apply elem_of_nil in Hid|].
  destruct (decide (id' = id)) as [->|Hne]; [apply lookup_delete_eq|].
  rewrite lookup_delete_ne by done. apply IH.
  apply elem_of_cons in Hid as [->|Hid]; done.
Qed.

Lemma Batch_add_lookup_other (toAdd registry : HandlerRegistry) (id : string) :
  toAdd !! id = None → controls.Batch [] toAdd registry !! id = registry !! id.
Proof.
  intros Hid. unfold controls.Batch. cbn [foldr].
  by rewrite lookup_union_r.
Qed.

(** X10.  [registerControls] (either revision) changes the registry only
    under the identifiers of its own map literal: every other identifier
    keeps whatever handler it had, or stays unbound.  With pairwise distinct
    identifiers, each entry of the literal ends up bound to its own handler,
    whatever was bound under that identifier before. *)
Theorem register_binds_only_its_identifiers `{report.Pkg} `{Resources}
    (r : Reporter) (registry : HandlerRegistry) (id : string) :
  (id ∉ (Part001.registered r).*1 →
   Part001.registerControls r registry !! id = registry !! id)
  ∧ (id ∉ (Part000.registered r).*1 →
     Part000.registerControls r registry !! id = registry !! id)
  ∧ (∀ h : xfer.ControlHandlerFunc,
       NoDup (Part001.registered r).*1 → (id, h) ∈ Part001.registered r →
       Part001.registerControls r registry !! id = Some h)
  ∧ (∀ h : xfer.ControlHandlerFunc,
       NoDup (Part000.registered r).*1 → (id, h) ∈ Part000.registered r →
       Part000.registerControls r registry !! id = Some h).
Proof.
  split; [|split; [|split]].
  - intros Hid. unfold Part001.registerControls.
    apply Batch_add_lookup_other. by apply not_elem_of_list_to_map_1.
  - intros Hid. unfold Part000.registerControls.
    apply Batch_add_lookup_other. by apply not_elem_of_list_to_map_1.
  - intros h Hnd Hin. by apply Part001_registered_lookup.
  - intros h Hnd Hin. by apply Part000_registered_lookup.
Qed.

Lemma register_binds_only_its_identifiers_witness :
  let r := Example.reporter [] in
  let other : HandlerRegistry :=
    {[ "docker_restart_container" := Part001.CapturePod r (Part001.deletePod r) ]} in
  Part001.registerControls r other !! "docker_restart_container" =
    other !! "docker_restart_container"
  ∧ Part000.registerControls r other !! "kubernetes_describe_pod" =
    other !! "kubernetes_describe_pod"
  ∧ Part001.registerControls r other !! "kubernetes_describe_pod" =
    Some (Part001.CapturePod r (Part001.describePod r)).
Proof.
  intros r other.
  destruct (register_binds_only_its_identifiers r other
              "docker_restart_container") as (H1 & _).
  destruct (register_binds_only_its_identifiers r other
              "kubernetes_describe_pod") as (_ & H0 & Hb & _).
  split; [|split].
  - apply H1. apply (bool_decide_unpack _). vm_compute. reflexivity.
  - apply H0. apply (bool_decide_unpack _). vm_compute. reflexivity.
  - apply Hb; [apply Example_Part001_NoDup|].
    unfold Part001.registered. in_literal.
Defined.

(** X11.  [deregisterControls] (either revision) unbinds every identifier
    of its slice literal, whoever bound it, and leaves every other
    identifier as it was. *)
Theorem deregister_unbinds_its_identifiers `{report.Pkg}
    (registry : HandlerRegistry) (id : string) :
  (id ∈ Part001.deregistered →
   Part001.deregisterControls registry !! id = None)
  ∧ (id ∉ Part001.deregistered →
     Part001.deregisterControls registry !! id = registry !! id)
  ∧ (id ∈ Part000.deregistered →
     Part000.deregisterControls registry !! id = None)
  ∧ (id ∉ Part000.deregistered →
     Part000.deregisterControls registry !! id = registry !! id).
Proof.
  split; [|split; [|split]]; intros Hid.
  - by apply Batch_remove_lookup_in.
  - by apply Batch_remove_lookup.
  - by apply Batch_remove_lookup_in.
  - by apply Batch_remove_lookup.
Qed.

Lemma deregister_unbinds_its_identifiers_witness :
  let r := Example.reporter [] in
  let registry : HandlerRegistry :=
    {[ "kubernetes_get_logs" := Part001.CapturePod r (Part001.deletePod r);
       "kubernetes_describe_pod" := Part001.CapturePod r (Part001.describePod r) ]} in
  Part001.deregisterControls registry !! "kubernetes_get_logs" = None
  ∧ Part001.deregisterControls registry !! "kubernetes_describe_pod" =
    registry !! "kubernetes_describe_pod"
  ∧ Part000.deregisterControls registry !! "kubernetes_get_logs" = None.
Proof.
  intros r registry.
  destruct (deregister_unbinds_its_identifiers registry "kubernetes_get_logs")
    as (H1 & _ & H0 & _).
  destruct (deregister_unbinds_its_identifiers registry
              "kubernetes_describe_pod") as (_ & H1' & _).
  split; [|split].
  - apply H1. unfold Part001.deregistered. in_literal.
  - apply H1'. apply (bool_decide_unpack _). vm_compute. reflexivity.
  - apply H0. unfold Part000.deregistered. in_literal.
Defined.

(** X12.  In the earlier revision, stopping after starting is the same as
    stopping alone: nothing that [registerControls] bound survives
    [deregisterControls].  In particular, on a registry that had none of
    the six identifiers bound, start followed by stop gives back the very
    same registry. *)
Theorem Part000_start_stop_restores `{report.Pkg} (r : Reporter)
    (registry : HandlerRegistry) :
  Part000.deregisterControls (Part000.registerControls r registry) =
    Part000.deregisterControls registry
  ∧ ((∀ id : string, id ∈ Part000.deregistered → registry !! id = None) →
     Part000.deregisterControls (Part000.registerControls r registry) =
       registry).
Proof.
  assert (Hstop : Part000.deregisterControls
                    (Part000.registerControls r registry) =
                  Part000.deregisterControls registry).
  { apply map_eq. intros id.
    destruct (decide (id ∈ Part000.deregistered)) as [Hin|Hout].
    - unfold Part000.deregisterControls.
      by rewrite !Batch_remove_lookup_in.
    - unfold Part000.deregisterControls.
      rewrite !Batch_remove_lookup by done.
      unfold Part000.registerControls. apply Batch_add_lookup_other.
      apply not_elem_of_list_to_map_1.
      assert (E : (Part000.registered r).*1 = Part000.deregistered)
        by reflexivity.
      by rewrite E. }
  split; [exact Hstop|].
  intros Hfree. rewrite Hstop. apply map_eq. intros id.
  destruct (decide (id ∈ Part000.deregistered)) as [Hin|Hout].
  - unfold Part000.deregisterControls.
    by rewrite Batch_remove_lookup_in, Hfree.
  - unfold Part000.deregisterControls. by rewrite Batch_remove_lookup.
Qed.

Lemma Part000_start_stop_restores_witness :
  let r := Example.reporter [] in
  let other : HandlerRegistry :=
    {[ "docker_restart_container" := Part001.CapturePod r (Part001.deletePod r) ]} in
  Part000.deregisterControls (Part000.registerControls r other) = other.
Proof.
  intros r other.
  apply (proj2 (Part000_start_stop_restores r other)).
  intros id Hid. unfold Part000.deregistered in Hid.
  repeat (apply elem_of_cons in Hid as [->|Hid]);
    try (by apply elem_of_nil in Hid); reflexivity.
Defined.

(** X13.  Starting again replaces everything an earlier start bound (both
    revisions): registering over a registry that still holds the handlers
    of a previous, possibly different, reporter gives the same registry as
    registering over it after [deregisterControls], or as if the previous
    [registerControls] had never run.  No handler of the old reporter stays
    reachable, the describe controls that [deregisterControls] of the
    current revision leaves behind included. *)
Theorem register_replaces_previous_start `{report.Pkg} `{Resources}
    (r r' : Reporter) (registry : HandlerRegistry) :
  (Part001.registerControls r' (Part001.registerControls r registry) =
     Part001.registerControls r' registry
   ∧ Part001.registerControls r'
       (Part001.deregisterControls (Part001.registerControls r registry)) =
     Part001.registerControls r' (Part001.deregisterControls registry))
  ∧
  (Part000.registerControls r' (Part000.registerControls r registry) =
     Part000.registerControls r' registry
   ∧ Part000.registerControls r'
       (Part000.deregisterControls (Part000.registerControls r registry)) =
     Part000.registerControls r' (Part000.deregisterControls registry)).
Proof.
  assert (Hkeys1 : (Part001.registered r).*1 = (Part001.registered r').*1)
    by reflexivity.
  assert (Hkeys0 : (Part000.registered r).*1 = (Part000.registered r').*1)
    by reflexivity.
  split; split; apply map_eq; intros id.
  - destruct ((list_to_map (Part001.registered r') : HandlerRegistry) !! id)
      as [h'|] eqn:E'.
    + unfold Part001.registerControls at 1 3.
      by rewrite !(Batch_add_lookup _ _ id h' E').
    + unfold Part001.registerControls at 1 3.
      rewrite !(Batch_add_lookup_other _ _ id E').
      unfold Part001.registerControls. apply Batch_add_lookup_other.
      apply not_elem_of_list_to_map_1. rewrite Hkeys1.
      by apply not_elem_of_list_to_map_2.
  - destruct ((list_to_map (Part001.registered r') : HandlerRegistry) !! id)
      as [h'|] eqn:E'.
    + unfold Part001.registerControls at 1 3.
      by rewrite !(Batch_add_lookup _ _ id h' E').
    + unfold Part001.registerControls at 1 3.
      rewrite !(Batch_add_lookup_other _ _ id E').
      destruct (decide (id ∈ Part001.deregistered)) as [Hin|Hout].
      * unfold Part001.deregisterControls. by rewrite !Batch_remove_lookup_in.
      * unfold Part001.deregisterControls.
        rewrite !Batch_remove_lookup by done.
        unfold Part001.registerControls. apply Batch_add_lookup_other.
        apply not_elem_of_list_to_map_1. rewrite Hkeys1.
        by apply not_elem_of_list_to_map_2.
  - destruct ((list_to_map (Part000.registered r') : HandlerRegistry) !! id)
      as [h'|] eqn:E'.
    + unfold Part000.registerControls at 1 3.
      by rewrite !(Batch_add_lookup _ _ id h' E').
    + unfold Part000.registerControls at 1 3.
      rewrite !(Batch_add_lookup_other _ _ id E').
      unfold Part000.registerControls. apply Batch_add_lookup_other.
      apply not_elem_of_list_to_map_1. rewrite Hkeys0.
      by apply not_elem_of_list_to_map_2.
  - destruct ((list_to_map (Part000.registered r') : HandlerRegistry) !! id)
      as [h'|] eqn:E'.
    + unfold Part000.registerControls at 1 3.
      by rewrite !(Batch_add_lookup _ _ id h' E').
    + unfold Part000.registerControls at 1 3.
      rewrite !(Batch_add_lookup_other _ _ id E').
      destruct (decide (id ∈ Part000.deregistered)) as [Hin|Hout].
      * unfold Part000.deregisterControls. by rewrite !Batch_remove_lookup_in.
      * unfold Part000.deregisterControls.
        rewrite !Batch_remove_lookup by done.
        unfold Part000.registerControls. apply Batch_add_lookup_other.
        apply not_elem_of_list_to_map_1. rewrite Hkeys0.
        by apply not_elem_of_list_to_map_2.
Qed.

(** ** Walk order *)

Lemma unique_by_uid {A : Type} (u : A -> string) (store : list A) (x y : A) :
  NoDup (u <$> store) → x ∈ store → y ∈ store → u x = u y → x = y.
Proof.
  induction store as [|z store IH]; intros Hnd Hx Hy Hu;
    [by apply elem_of_nil in Hx|].
  rewrite fmap_cons in Hnd. apply NoDup_cons in Hnd as [Hz Hnd].
  apply elem_of_cons in Hx as [->|Hx]; apply elem_of_cons in Hy as [->|Hy].
  - done.
  - exfalso. apply Hz. rewrite Hu. by apply list_elem_of_fmap_2.
  - exfalso. apply Hz. rewrite <- Hu. by apply list_elem_of_fmap_2.
  - by apply IH.
Qed.

Lemma last_match_perm {A : Type} (u : A -> string) (uid : string)
    (store store' : list A) :
  store ≡ₚ store' → NoDup (u <$> store) →
  last_match u uid store = last_match u uid store'.
Proof.
  intros Hperm Hnd.
  assert (Hnd' : NoDup (u <$> store')) by by rewrite <- Hperm.
  destruct (last_match u uid store) as [x|] eqn:E.
  - apply last_match_Some in E as [Hx Hux].
    assert (Hx' : x ∈ store') by by rewrite <- Hperm.
    destruct (last_match_is_Some u uid store' x Hx' Hux) as [y Hy].
    rewrite Hy. f_equal.
    apply last_match_Some in Hy as [Hy Huy].
    apply (unique_by_uid u store'); congruence.
  - destruct (last_match u uid store') as [y|] eqn:E'; [|done].
    apply last_match_Some in E' as [Hy Huy].
    assert (Hy' : y ∈ store) by by rewrite Hperm.
    destruct (last_match_is_Some u uid store y Hy' Huy) as [z Hz].
    congruence.
Qed.

(** X14.  When the unique ids of a store are pairwise distinct, the order in
    which the walker yields the handles does not matter: an adapter (either
    revision) gives the same answer and the same effects on any two caches
    whose stores hold the same handles in different orders. *)
Theorem capture_ignores_walk_order `{report.Pkg} `{Resources}
    (r r' : Reporter) (req : xfer.Request) (w : World) :
  (∀ (a : Part001.Adapter) (f : Part001.Continuation a),
     Part001.store a (client r) ≡ₚ Part001.store a (client r') →
     NoDup (Part001.uid_of a <$> Part001.store a (client r)) →
     Part001.capture r a f req w = Part001.capture r' a f req w)
  ∧
  (∀ (a : Part000.Adapter) (f : Part000.Continuation a),
     Part000.store a (client r) ≡ₚ Part000.store a (client r') →
     NoDup (Part000.uid_of a <$> Part000.store a (client r)) →
     Part000.capture r a f req w = Part000.capture r' a f req w).
Proof.
  split; intros a f Hperm Hnd.
  - rewrite !Part001_capture_eq.
    destruct (Part001.parse a (xfer.NodeID req)) as [uid|]; [|done].
    by rewrite (last_match_perm _ uid _ _ Hperm Hnd).
  - rewrite !Part000_capture_eq.
    destruct (Part000.parse a (xfer.NodeID req)) as [uid|]; [|done].
    by rewrite (last_match_perm _ uid _ _ Hperm Hnd).
Qed.

Lemma capture_ignores_walk_order_witness :
  let r := Example.reporter [Example.foo; Example.bar] in
  let r' := Example.reporter [Example.bar; Example.foo] in
  let req := Example.request "kubernetes_delete_pod" "pod:abc" in
  Part001.CapturePod r (Part001.deletePod r) req [] =
    Part001.CapturePod r' (Part001.deletePod r) req []
  ∧ Part000.CapturePod r (Part000.deletePod r) req [] =
    Part000.CapturePod r' (Part000.deletePod r) req [].
Proof.
  intros r r' req.
  destruct (capture_ignores_walk_order r r' req []) as [H1 H0].
  split.
  - apply (H1 Part001.APod (Part001.deletePod r)).
    + apply Permutation_swap.
    + apply (bool_decide_unpack _). vm_compute. reflexivity.
  - apply (H0 Part000.APod (Part000.deletePod r)).
    + apply Permutation_swap.
    + apply (bool_decide_unpack _). vm_compute. reflexivity.
Defined.

(** ** The identifier published by [GetNode], sent back *)

(** X15.  Suppose the codec of the [report] package gives back the unique
    id of snapshot [p] from the identifier made for it.  Then a
    delete-volume-snapshot request that carries the identifier under which
    [GetNode] published [p], while [p] is cached and is the cache's only
    snapshot of that unique id up to namespace and name, makes the
    dispatcher (either revision) call [DeleteVolumeSnapshot] once on the
    namespace and name of [p]; on success the published identifier comes
    back as removed node. *)
Theorem published_snapshot_delete `{report.Pkg} `{Resources}
    (r : Reporter) (registry : HandlerRegistry) (req : xfer.Request)
    (w : World) (p : VolumeSnapshot) :
  report.ParseVolumeSnapshotNodeID (report.MakeVolumeSnapshotNodeID (UID p))
    = Some (UID p) →
  xfer.NodeID req = GetNode_ID p →
  xfer.Control req = report.KubernetesDeleteVolumeSnapshot →
  p ∈ volumeSnapshotStore (client r) →
  (∀ q : VolumeSnapshot, q ∈ volumeSnapshotStore (client r) → UID q = UID p →
     Namespace q = Namespace p ∧ Name q = Name p) →
  let expected : xfer.Response * World :=
    (match doDeleteVolumeSnapshot (client r) (Namespace p) (Name p) with
     | None => {| xfer.Value := ""; xfer.Error := ""; xfer.Pipe := "";
                  xfer.RemovedNode := GetNode_ID p |}
     | Some err => {| xfer.Value := ""; xfer.Error := err; xfer.Pipe := "";
                      xfer.RemovedNode := "" |}
     end,
     w ++ [EvWalk "VolumeSnapshots";
           EvDeleteVolumeSnapshot (Namespace p) (Name p)]) in
  (NoDup (Part001.registered r).*1 →
   controls.HandleControlRequest (Part001.registerControls r registry) req w
     = expected)
  ∧
  (NoDup (Part000.registered r).*1 →
   controls.HandleControlRequest (Part000.registerControls r registry) req w
     = expected).
Proof.
  intros Hround Hid Hctl Hin Hsame expected. subst expected.
  destruct (last_match_is_Some (fun x : VolumeSnapshot => UID x) (UID p) _ p
              Hin eq_refl) as [q Hq].
  destruct (last_match_Some _ _ _ _ Hq) as [Hq_in Hq_uid].
  destruct (Hsame q Hq_in Hq_uid) as [Hns Hname].
  assert (Hparse : report.ParseVolumeSnapshotNodeID (xfer.NodeID req) =
                     Some (UID p)) by (rewrite Hid; exact Hround).
  rewrite <- Hid, <- Hns, <- Hname.
  split; intros Hnd.
  - rewrite (Part001_dispatch r registry req w _
               (Part001.CaptureVolumeSnapshot r (Part001.deleteVolumeSnapshot r))
               Hnd) by (done || (unfold Part001.registered; in_literal)).
    etrans; [exact (Part001_capture_resolved r Part001.AVolumeSnapshot
               (Part001.deleteVolumeSnapshot r) req w _ q Hparse Hq)|].
    cbn [Part001.invoke Part001.walked]. run_handler.
    rewrite <- app_assoc. by destruct (doDeleteVolumeSnapshot _ _ _).
  - rewrite (Part000_dispatch r registry req w _
               (Part000.CaptureVolumeSnapshot r (Part000.deleteVolumeSnapshot r))
               Hnd) by (done || (unfold Part000.registered; in_literal)).
    etrans; [exact (Part000_capture_resolved r Part000.AVolumeSnapshot
               (Part000.deleteVolumeSnapshot r) req w _ q Hparse Hq)|].
    cbn [Part000.invoke Part000.walked]. run_handler.
    rewrite <- app_assoc. by destruct (doDeleteVolumeSnapshot _ _ _).
Qed.

Lemma published_snapshot_delete_witness :
  let r := Example.reporter [] in
  let p := {| volumeSnapshot_Meta := Example.meta "p1" "ns1" "snap";
              GetVolumeName := "claim"; vs_capacity := "5Gi" |} in
  let req := Example.request "kubernetes_delete_volume_snapshot"
               (GetNode_ID p) in
  controls.HandleControlRequest (Part001.registerControls r ∅) req [] =
    ({| xfer.Value := ""; xfer.Error := ""; xfer.Pipe := "";
        xfer.RemovedNode := "snapshot:p1" |},
     [EvWalk "VolumeSnapshots"; EvDeleteVolumeSnapshot "ns1" "snap"]).
Proof.
  intros r p req.
  assert (Hround : report.ParseVolumeSnapshotNodeID
            (report.MakeVolumeSnapshotNodeID (UID p)) = Some (UID p))
    by reflexivity.
  assert (Hid : xfer.NodeID req = GetNode_ID p) by reflexivity.
  assert (Hctl : xfer.Control req = report.KubernetesDeleteVolumeSnapshot)
    by reflexivity.
  assert (Hin : p ∈ volumeSnapshotStore (client r)) by in_literal.
  assert (Hsame : ∀ q : VolumeSnapshot,
            q ∈ volumeSnapshotStore (client r) → UID q = UID p →
            Namespace q = Namespace p ∧ Name q = Name p).
  { intros q Hq _. apply list_elem_of_In in Hq.
    destruct Hq as [<-|[]]. split; reflexivity. }
  apply (proj1 (published_snapshot_delete r ∅ req [] p Hround Hid Hctl Hin
                  Hsame)).
  apply Example_Part001_NoDup.
Defined.

(** ** The two revisions side by side *)

(** X16.  The controls that both revisions register behave alike.  For
    get-logs, delete-pod, scale-up and scale-down the handlers of the two
    revisions give the same answer and the same effects on every request in
    every world.  For delete-volume-snapshot they do so whenever the node
    identifier is rejected or resolves to a cached snapshot; when it decodes
    but no snapshot matches, the effects are the same and the answers differ
    in the wording of the message only (["Volume snapshot not found: "]
    against ["VolumeSnapshot not found: "]). *)
Theorem revisions_agree_on_shared_controls `{report.Pkg} `{Resources}
    (r : Reporter) (req : xfer.Request) (w : World) :
  Part001.CapturePod r (Part001.GetLogs r) req w =
    Part000.CapturePod r (Part000.GetLogs r) req w
  ∧ Part001.CapturePod r (Part001.deletePod r) req w =
    Part000.CapturePod r (Part000.deletePod r) req w
  ∧ Part001.CaptureDeployment r (Part001.ScaleUp r) req w =
    Part000.CaptureDeployment r (Part000.ScaleUp r) req w
  ∧ Part001.CaptureDeployment r (Part001.ScaleDown r) req w =
    Part000.CaptureDeployment r (Part000.ScaleDown r) req w
  ∧ (report.ParseVolumeSnapshotNodeID (xfer.NodeID req) = None →
     Part001.CaptureVolumeSnapshot r (Part001.deleteVolumeSnapshot r) req w =
       Part000.CaptureVolumeSnapshot r (Part000.deleteVolumeSnapshot r) req w)
  ∧ (∀ uid : string,
       report.ParseVolumeSnapshotNodeID (xfer.NodeID req) = Some uid →
       is_Some (last_match (fun x : VolumeSnapshot => UID x) uid
                  (volumeSnapshotStore (client r))) →
       Part001.CaptureVolumeSnapshot r (Part001.deleteVolumeSnapshot r) req w =
         Part000.CaptureVolumeSnapshot r (Part000.deleteVolumeSnapshot r)
           req w)
  ∧ (∀ uid : string,
       report.ParseVolumeSnapshotNodeID (xfer.NodeID req) = Some uid →
       last_match (fun x : VolumeSnapshot => UID x) uid
         (volumeSnapshotStore (client r)) = None →
       Part001.CaptureVolumeSnapshot r (Part001.deleteVolumeSnapshot r) req w =
         (xfer.ResponseErrorf "Volume snapshot not found: " uid,
          w ++ [EvWalk "VolumeSnapshots"])
       ∧ Part000.CaptureVolumeSnapshot r (Part000.deleteVolumeSnapshot r)
           req w =
         (xfer.ResponseErrorf "VolumeSnapshot not found: " uid,
          w ++ [EvWalk "VolumeSnapshots"])
       ∧ xfer.ResponseErrorf "Volume snapshot not found: " uid
         ≠ xfer.ResponseErrorf "VolumeSnapshot not found: " uid).
Proof.
  split; [|split; [|split; [|split; [|split; [|split]]]]].
  - do 2 to_capture. split_cases; reflexivity.
  - do 2 to_capture. split_cases; reflexivity.
  - do 2 to_capture. split_cases; reflexivity.
  - do 2 to_capture. split_cases; reflexivity.
  - intros Hparse. do 2 to_capture. by rewrite Hparse.
  - intros uid Hparse [q Hq]. do 2 to_capture. by rewrite Hparse, Hq.
  - intros uid Hparse Hnone. split; [|split].
    + to_capture. by rewrite Hparse, Hnone.
    + to_capture. by rewrite Hparse, Hnone.
    + discriminate.
Qed.

Lemma revisions_agree_on_shared_controls_witness :
  let r := Example.reporter [] in
  let req := Example.request "kubernetes_delete_volume_snapshot" "snapshot:zz" in
  Part001.CaptureVolumeSnapshot r (Part001.deleteVolumeSnapshot r) req [] =
    (xfer.ResponseErrorf "Volume snapshot not found: " "zz",
     [EvWalk "VolumeSnapshots"])
  ∧ Part000.CaptureVolumeSnapshot r (Part000.deleteVolumeSnapshot r) req [] =
    (xfer.ResponseErrorf "VolumeSnapshot not found: " "zz",
     [EvWalk "VolumeSnapshots"]).
Proof.
  intros r req.
  destruct (revisions_agree_on_shared_controls r req [])
    as (_ & _ & _ & _ & _ & _ & Hdiff).
  assert (Hparse : report.ParseVolumeSnapshotNodeID (xfer.NodeID req) =
                     Some "zz") by reflexivity.
  assert (Hnone : last_match (fun x : VolumeSnapshot => UID x) "zz"
                    (volumeSnapshotStore (client r)) = None) by reflexivity.
  destruct (Hdiff "zz" Hparse Hnone) as (Ha & Hb & _).
  split; [exact Ha|exact Hb].
Defined.
